(** * AoikPickChar: the launcher ([__main__.py], [main_init.py]) and the
    picking / composing contracts of its design document.

    The development is a shallow embedding.  Python code that mutates the
    interpreter ([sys.path], [os.environ], the two console streams) is
    written in a state-and-exception monad; calls that leave the repository
    ([os.path], the import system, [traceback.format_exc], the console) are
    fields of records the program is parameterised by. *)

From Stdlib Require Import ZArith Ascii String.
From stdpp Require Import gmap strings list.
From Equations Require Import Equations.

Local Open Scope string_scope.
Local Open Scope list_scope.
Local Open Scope nat_scope.

(** ** Python built-ins used by the launcher *)

Module Py.

(** [s.split(sep)] for a one-character separator: never returns the empty
    list, and an empty field is kept as the empty string. *)
Fixpoint split (sep : ascii) (s : string) : list string :=
  match s with
  | EmptyString => [EmptyString]
  | String c s' =>
      if Ascii.eqb c sep then EmptyString :: split sep s'
      else match split sep s' with
           | [] => [String c EmptyString]
           | w :: ws => String c w :: ws
           end
  end.

(** [sep.join(l)]. *)
Fixpoint join (sep : string) (l : list string) : string :=
  match l with
  | [] => EmptyString
  | [x] => x
  | x :: rest => x +:+ sep +:+ join sep rest
  end.

(** [c in s] for a character and a string. *)
Fixpoint contains (c : ascii) (s : string) : bool :=
  match s with
  | EmptyString => false
  | String d s' => Ascii.eqb d c || contains c s'
  end.

(** [s.startswith(p)]. *)
Definition startswith (p s : string) : bool := String.prefix p s.

(** [l.remove(x)]: drops the first occurrence; [None] stands for the
    [ValueError] raised when there is none. *)
Fixpoint list_remove (x : string) (l : list string) : option (list string) :=
  match l with
  | [] => None
  | y :: l' =>
      if decide (y = x) then Some l'
      else match list_remove x l' with
           | Some r => Some (y :: r)
           | None => None
           end
  end.

(** [l.insert(i, x)] for [i >= 0]: an index past the end appends. *)
Definition list_insert (i : nat) (x : string) (l : list string) : list string :=
  take i l ++ x :: drop i l.

(** [x in l]. *)
Definition list_in (x : string) (l : list string) : bool :=
  bool_decide (x ∈ l).

(** A raised exception object: its class, the classes its class derives
    from (up to, and not including, [BaseException]) and its message. *)
Record exn : Type := mkExn {
  exn_class : string;
  exn_bases : list string;
  exn_msg : string
}.

(** What an [except C] clause tests.  Every raised object is an instance
    of [BaseException]. *)
Definition isinstance (e : exn) (C : string) : bool :=
  String.eqb C "BaseException"
  || String.eqb C (exn_class e)
  || bool_decide (C ∈ exn_bases e).

Definition ValueError : exn := mkExn "ValueError" ["Exception"] "".
Definition AssertionError (msg : string) : exn :=
  mkExn "AssertionError" ["Exception"] msg.
Definition ImportError (msg : string) : exn :=
  mkExn "ImportError" ["Exception"] msg.
Definition KeyboardInterrupt : exn := mkExn "KeyboardInterrupt" [] "".
Definition OSError (msg : string) : exn := mkExn "OSError" ["Exception"] msg.

End Py.

(** ** Interpreter state and the monad of statements *)

(** The part of the interpreter the launcher reads and writes. *)
Record State : Type := mkState {
  sys_path : list string;            (* [sys.path] *)
  environ : gmap string string;      (* [os.environ] *)
  stdout : string;                   (* everything written to [sys.stdout] *)
  stderr : string                    (* everything written to [sys.stderr] *)
}.

Definition set_sys_path (l : list string) (s : State) : State :=
  mkState l (environ s) (stdout s) (stderr s).
Definition set_environ (m : gmap string string) (s : State) : State :=
  mkState (sys_path s) m (stdout s) (stderr s).
Definition set_stderr (t : string) (s : State) : State :=
  mkState (sys_path s) (environ s) (stdout s) t.

(** How a statement ends: normally with a value, or by raising. *)
Inductive result (A : Type) : Type :=
| Ok (a : A)
| Raise (e : Py.exn).
Arguments Ok {A} a.
Arguments Raise {A} e.

(** A statement transforms the state and ends; the state changes made
    before an exception is raised are kept. *)
Definition M (A : Type) : Type := State → State * result A.

Definition ret {A} (a : A) : M A := fun s => (s, Ok a).
Definition raise {A} (e : Py.exn) : M A := fun s => (s, Raise e).
Definition bind {A B} (m : M A) (k : A → M B) : M B :=
  fun s => match m s with
           | (s', Ok a) => k a s'
           | (s', Raise e) => (s', Raise e)
           end.

Declare Scope py_scope.
Delimit Scope py_scope with py.
Notation "x ← y ; z" := (bind y (fun x => z))
  (at level 20, y at level 100, z at level 200, only parsing) : py_scope.
Notation "x ;; z" := (bind x (fun _ => z))
  (at level 100, z at level 200, only parsing, right associativity) : py_scope.
Local Open Scope py_scope.

(** [try: body / except ...: handler]: the handler receives the exception;
    it re-raises the ones no clause matches.  An exception raised by the
    handler itself is not handled again. *)
Definition try_except {A} (body : M A) (handler : Py.exn → M A) : M A :=
  fun s => match body s with
           | (s', Ok a) => (s', Ok a)
           | (s', Raise e) => handler e s'
           end.

(** [assert cond, msg].  [enabled] is [__debug__]: where assert
    statements are compiled away, nothing is checked. *)
Definition assert (enabled cond : bool) (msg : string) : M unit :=
  if enabled then
    if cond then ret tt else raise (Py.AssertionError msg)
  else ret tt.

(** [when c m]: an [if] without [else]. *)
Definition when (c : bool) (m : M unit) : M unit :=
  if c then m else ret tt.

(** [for x in l: body x]. *)
Fixpoint for_each {A} (l : list A) (body : A → M unit) : M unit :=
  match l with
  | [] => ret tt
  | x :: l' => body x ;; for_each l' body
  end.

(** [sys.path.remove(path)]. *)
Definition sys_path_remove (path : string) : M unit :=
  fun s => match Py.list_remove path (sys_path s) with
           | Some l => (set_sys_path l s, Ok tt)
           | None => (s, Raise Py.ValueError)
           end.

(** [path not in sys.path]. *)
Definition not_in_sys_path (path : string) : M bool :=
  fun s => (s, Ok (negb (Py.list_in path (sys_path s)))).

(** [sys.path.insert(0, path)]. *)
Definition sys_path_insert (i : nat) (path : string) : M unit :=
  fun s => (set_sys_path (Py.list_insert i path (sys_path s)) s, Ok tt).

(** [os.environ.get(name, default)]. *)
Definition environ_get (name dflt : string) : M string :=
  fun s => (s, Ok (default dflt (environ s !! name))).

(** [os.environ[name] = value]. *)
Definition environ_set (name value : string) : M unit :=
  fun s => (set_environ (<[name := value]> (environ s)) s, Ok tt).

(** ** The platform, as the launcher sees it

    [os.path], the file system, and whether the interpreter compiles
    [assert] statements in: [assertions] is [__debug__], which is [False]
    under [python -O] or [PYTHONOPTIMIZE].  [abspath] is the value
    [os.path.abspath] returns; a call of it that raises (a relative path
    in a working directory that no longer exists) is not modelled, so the
    statements below speak of calls that return, or of what a raised
    exception leaves behind, never of all the ways a call can fail. *)

Record OsPath : Type := mkOsPath {
  abspath : string → string;
  isabs : string → bool;
  isdir : string → bool;
  isfile : string → bool;
  path_join : string → string → string;
  dirname : string → string;
  pathsep : ascii;
  assertions : bool
}.

(** ** [main_init.py] *)

(** Remembers the equation of a case analysis. *)
Definition inspect {A} (a : A) : {b : A | a = b} := exist _ a eq_refl.

(** The loop of lines 42-51:
<<
    while True:
        try:
            sys.path.remove(path)
        except ValueError:
            break
>>
    Each round that does not leave the loop shortens [sys.path]. *)
Equations? remove_loop (path : string) (s : State) : State * result unit
  by wf (length (sys_path s)) lt :=
  remove_loop path s with inspect (sys_path_remove path s) := {
    | exist _ (s', Ok _) _ => remove_loop path s'
    | exist _ (s', Raise e) _ =>
        if Py.isinstance e "ValueError" then (s', Ok tt) else (s', Raise e)
  }.
Proof.
  unfold sys_path_remove in *.
  destruct (Py.list_remove path (sys_path s)) as [r|] eqn:Hr; [|discriminate].
  match goal with H : (_, _) = (_, _) |- _ => injection H as <- end.
  simpl. revert r Hr. generalize (sys_path s). clear.
  intros l. induction l as [|y l IH]; intros r; simpl; [discriminate|].
  destruct (decide (y = path)); [intros [= <-]; lia|].
  destruct (Py.list_remove path l) as [r'|]; [|discriminate].
  intros [= <-]. specialize (IH r' eq_refl). simpl. lia.
Qed.

Section MainInit.

Context (os : OsPath).

(** [setup_syspath(package_root, current_dir=None)], lines 13-107. *)
Definition setup_syspath (package_root : string) (current_dir : option string)
  : M unit :=
  let removing_dir_s := [""; "."] in
  let removing_dir_s :=
    match current_dir with
    | Some current_dir =>
        let current_dir := abspath os current_dir in
        removing_dir_s ++ [current_dir]
    | None => removing_dir_s
    end in
  for_each removing_dir_s (fun path => remove_loop path) ;;
  let package_root := abspath os package_root in
  assert (assertions os) (isabs os package_root) package_root ;;
  assert (assertions os) (isdir os package_root) package_root ;;
  missing ← not_in_sys_path package_root ;
  when missing (sys_path_insert 0 package_root) ;;
  let dep_root := path_join os package_root "aoikpickchardep" in
  let dep_root := abspath os dep_root in
  assert (assertions os) (isabs os dep_root) dep_root ;;
  assert (assertions os) (isdir os dep_root) dep_root ;;
  missing ← not_in_sys_path dep_root ;
  when missing (sys_path_insert 0 dep_root) ;;
  pythonpath ← environ_get "PYTHONPATH" "" ;
  let pythonpath_dir_s := Py.split (pathsep os) pythonpath in
  let pythonpath_dir_s := map (abspath os) pythonpath_dir_s in
  let pythonpath_dir_s :=
    if negb (Py.list_in package_root pythonpath_dir_s)
    then Py.list_insert 0 package_root pythonpath_dir_s
    else pythonpath_dir_s in
  let pythonpath_dir_s :=
    if negb (Py.list_in dep_root pythonpath_dir_s)
    then Py.list_insert 0 dep_root pythonpath_dir_s
    else pythonpath_dir_s in
  let new_pythonpath :=
    Py.join (String (pathsep os) EmptyString) pythonpath_dir_s in
  environ_set "PYTHONPATH" new_pythonpath.

End MainInit.

(** ** A model of [posixpath]

    The launcher is written against [os.path]; the theorems below hold for
    any [OsPath].  This module is the POSIX reading of that interface, over
    a working directory and a finite list of existing directories and
    files; the concrete runs of the development use it. *)

Module Posix.

Definition slash : ascii := "/"%char.

Fixpoint drop_slashes (l : list ascii) : list ascii :=
  match l with
  | c :: l' => if bool_decide (c = slash) then drop_slashes l' else l
  | [] => []
  end.

(** [s.rstrip('/')]. *)
Definition rstrip_slash (s : string) : string :=
  string_of_list_ascii (rev (drop_slashes (rev (list_ascii_of_string s)))).

Definition all_slashes (s : string) : bool :=
  forallb (fun c => bool_decide (c = slash)) (list_ascii_of_string s).

Definition endswith_slash (s : string) : bool :=
  match rev (list_ascii_of_string s) with
  | c :: _ => bool_decide (c = slash)
  | [] => false
  end.

Definition isabs (s : string) : bool := Py.startswith "/" s.

Definition join (a b : string) : string :=
  if Py.startswith "/" b then b
  else if String.eqb a "" || endswith_slash a then a +:+ b
  else a +:+ "/" +:+ b.

(** One round of the loop of [normpath]; [new_comps] is kept with its
    last element first. *)
Definition norm_step (initial_slashes : nat) (new_comps : list string)
    (comp : string) : list string :=
  if String.eqb comp "" || String.eqb comp "." then new_comps
  else if negb (String.eqb comp "..")
          || (Nat.eqb initial_slashes 0 && bool_decide (new_comps = []))
          || match new_comps with
             | top :: _ => String.eqb top ".."
             | [] => false
             end
       then comp :: new_comps
       else tail new_comps.

Definition normpath (path : string) : string :=
  if String.eqb path "" then "."
  else
    let initial_slashes :=
      if Py.startswith "/" path then
        if Py.startswith "//" path && negb (Py.startswith "///" path)
        then 2 else 1
      else 0 in
    let comps := Py.split slash path in
    let new_comps := rev (fold_left (norm_step initial_slashes) comps []) in
    let path := Py.join "/" new_comps in
    let path :=
      match initial_slashes with
      | 0 => path
      | 1 => "/" +:+ path
      | _ => "//" +:+ path
      end in
    if String.eqb path "" then "." else path.

Definition abspath (cwd : string) (path : string) : string :=
  normpath (if isabs path then path else join cwd path).

Definition dirname (p : string) : string :=
  let comps := Py.split slash p in
  let head :=
    match comps with
    | [_] | [] => ""
    | _ => Py.join "/" (removelast comps) +:+ "/"
    end in
  if negb (String.eqb head "") && negb (all_slashes head)
  then rstrip_slash head else head.

(** [os.path] of a POSIX process started without [-O]: [cwd] is its
    working directory, [dirs] and [files] are the directories and regular
    files that exist. *)
Definition os (cwd : string) (dirs files : list string) : OsPath :=
  mkOsPath (abspath cwd) isabs
    (fun p => Py.list_in (abspath cwd p) dirs)
    (fun p => Py.list_in (abspath cwd p) files)
    join dirname ":"%char true.

End Posix.

(** ** [__main__.py] *)

(** What [main] asks of the interpreter beyond [sys.path], [os.environ]
    and [os.path].  Each call may end by raising: an [option Py.exn] is
    the exception it raises, if any, in the state it is made in. *)
Record Interp : Type := mkInterp {
  this_file : string;                            (* [__file__] *)
  load_main_init : string → State → option Py.exn;
      (* [open(path)], [file.read()], [exec(...)] and the lookup of
         ['setup_syspath'], lines 48-59 *)
  import_PIL : State → option Py.exn;            (* [import PIL] *)
  stderr_fault : string → State → option Py.exn;
      (* the exception [sys.stderr.write(msg)] raises instead of writing *)
  format_exc : Py.exn → string                   (* [traceback.format_exc()] *)
}.

(** The module [aoikpickchar.main_inner], which the launcher imports and
    calls and which is not part of the sources at hand: importing it and
    calling its [main_inner] are arbitrary statements. *)
Record Core : Type := mkCore {
  import_main_inner : M unit;
  main_inner : option (list string) → M Z
}.

Definition nl : string := String (ascii_of_nat 10) EmptyString.

Section Main.

Context (os : OsPath) (it : Interp) (core : Core).

Definition lift_fault (f : State → option Py.exn) : M unit :=
  fun s => match f s with
           | Some e => (s, Raise e)
           | None => (s, Ok tt)
           end.

(** [sys.stderr.write(msg)]. *)
Definition stderr_write (msg : string) : M unit :=
  lift_fault (stderr_fault it msg) ;;
  (fun s => (set_stderr (stderr s +:+ msg) s, Ok tt)).

(** [run_setup_syspath(package_root, current_dir=None)], lines 13-62.
    The code the file holds is [main_init.py], so the function looked up
    after [exec] is [setup_syspath] above. *)
Definition run_setup_syspath (package_root : string)
    (current_dir : option string) : M unit :=
  let package_root := abspath os package_root in
  assert (assertions os) (isabs os package_root) package_root ;;
  let main_init_file_path :=
    path_join os (path_join os package_root "aoikpickchar") "main_init.py" in
  assert (assertions os) (isabs os main_init_file_path) main_init_file_path ;;
  assert (assertions os) (isfile os main_init_file_path) main_init_file_path ;;
  lift_fault (load_main_init it main_init_file_path) ;;
  setup_syspath os package_root current_dir.

Definition missing_PIL_msg : string :=
  "Error: Package `PIL` is not installed. Try:" +:+ nl +:+
  "pip install pillow" +:+ nl.

(** [check_deps()], lines 65-90: the error message for a missing
    dependency, otherwise [None]. *)
Definition check_deps : M (option string) :=
  try_except
    (lift_fault (import_PIL it) ;; ret None)
    (fun e =>
       if Py.isinstance e "ImportError" then ret (Some missing_PIL_msg)
       else raise e).

(** The body of the [try] statement of [main], lines 101-128. *)
Definition main_body (args : option (list string)) : M Z :=
  run_setup_syspath
    (dirname os (dirname os (abspath os (this_file it))))
    (Some (dirname os (abspath os (this_file it)))) ;;
  error_msg ← check_deps ;
  match error_msg with
  | Some error_msg =>
      stderr_write error_msg ;;
      ret (-100)%Z
  | None =>
      import_main_inner core ;;
      main_inner core args
  end.

(** The [except] clauses of [main], lines 130-152, tried in order. *)
Definition main_handler (e : Py.exn) : M Z :=
  if Py.isinstance e "SystemExit" then raise e
  else if Py.isinstance e "KeyboardInterrupt" then ret 0%Z
  else
    let tb_msg := format_exc it e in
    let error_msg :=
      "Traceback:" +:+ nl +:+ "---" +:+ nl +:+ tb_msg +:+ "---" +:+ nl in
    stderr_write error_msg ;;
    ret (-1)%Z.

(** [main(args=None)], lines 93-152: the exit code. *)
Definition main (args : option (list string)) : M Z :=
  try_except (main_body args) main_handler.

End Main.

(** ** The Character Picker and the Image Composer of the design document

    The rendering core is not among the sources; these two components are
    written from the design document. *)

Module Design.

(** Modelled from the spec: the error taxonomy of section 7 (no core
    module is among the sources). *)
Inductive error : Type :=
| InvalidPoolError
| InsufficientPoolError
| FontLoadError
| GlyphMissingError
| EmptyBatchError
| WriteError.

(** How a component of the core ends: with a value, or with one of the
    errors. *)
Inductive outcome (A : Type) : Type :=
| Done (a : A)
| Fails (e : error).
Arguments Done {A} a.
Arguments Fails {A} e.

(** Modelled from the spec: the [PickRequest] of section 3 (no picker is
    among the sources).  [pool] is a [CharacterPool], an ordered sequence
    of code points; its invariant (non-empty, no duplicates) is stated
    where a theorem needs it. *)
Record PickRequest : Type := mkPickRequest {
  count : nat;
  seed : option Z;
  pool : list N
}.

Section Picker.

(** The entropy algorithm is left open by the design document: [Gen]
    is the state of a generator, [seeded sd] the state a seed
    determines, [draw g bound] one draw below [bound] and the next
    state. *)
Context {Gen : Type} (seeded : Z → Gen) (draw : Gen → nat → nat * Gen).

(** Modelled from the spec: sampling without replacement of section
    4.2 (no picker is among the sources); each draw takes one
    character out of those that remain. *)
Fixpoint draw_without_replacement (n : nat) (g : Gen) (remaining : list N)
  : list N :=
  match n, remaining with
  | S n', c0 :: _ =>
      let '(i, g') := draw g (length remaining) in
      let i := i mod length remaining in
      nth i remaining c0
        :: draw_without_replacement n' g' (take i remaining ++ drop (S i) remaining)
  | _, _ => []
  end.

(** Modelled from the spec: the "with replacement" mode of section 4.2
    (no picker is among the sources); every draw is from the whole
    pool. *)
Fixpoint draw_with_replacement (n : nat) (g : Gen) (chars : list N)
  : list N :=
  match n, chars with
  | S n', c0 :: _ =>
      let '(i, g') := draw g (length chars) in
      nth (i mod length chars) chars c0 :: draw_with_replacement n' g' chars
  | _, _ => []
  end.

(** Modelled from the spec: the Character Picker of section 4.2 (no
    picker is among the sources).  [entropy] is the state of the
    non-deterministic entropy source at the invocation; it is used only
    when the request has no seed.  [replacement] is the explicitly
    requested "with replacement" mode. *)
Definition pick (entropy : Gen) (replacement : bool) (req : PickRequest)
  : outcome (list N) :=
  let g := match seed req with
           | Some sd => seeded sd
           | None => entropy
           end in
  if replacement then Done (draw_with_replacement (count req) g (pool req))
  else if (length (pool req) <? count req)%nat then Fails InsufficientPoolError
  else Done (draw_without_replacement (count req) g (pool req)).

End Picker.

(** Modelled from the spec: the [RenderedGlyph] of section 3 (no renderer
    is among the sources): a pixel buffer with its dimensions and the
    character it depicts. *)
Record RenderedGlyph : Type := mkGlyph {
  glyph_char : N;
  glyph_width : nat;
  glyph_height : nat;
  glyph_pixels : list Z
}.

(** Modelled from the spec: the layout modes of section 4.5. *)
Inductive Layout : Type :=
| single
| horizontal_strip
| grid (columns : nat).

(** Modelled from the spec: the [ComposedImage] of section 3 (no composer
    is among the sources): the cells of the composition row by row, the
    uniform cell size, the dimensions and the characters depicted. *)
Record ComposedImage : Type := mkImage {
  image_rows : list (list RenderedGlyph);
  cell_width : nat;
  cell_height : nat;
  image_width : nat;
  image_height : nat;
  image_chars : list N
}.

(** Modelled from the spec: "placed left-to-right, top-to-bottom in pick
    order" (section 4.5).  [row] is the row being filled; a row is closed
    when it holds [columns] cells. *)
Fixpoint fill_rows (columns : nat) (row : list RenderedGlyph)
    (glyphs : list RenderedGlyph) : list (list RenderedGlyph) :=
  match glyphs with
  | [] => match row with
          | [] => []
          | _ => [row]
          end
  | g :: rest =>
      let row' := row ++ [g] in
      if (columns <=? length row')%nat then row' :: fill_rows columns [] rest
      else fill_rows columns row' rest
  end.

(** The largest element of a list of sizes. *)
Definition max_list (l : list nat) : nat := foldr Nat.max 0 l.

(** [n] cells of size [cell] in a line, [padding] between neighbours. *)
Definition span (n cell padding : nat) : nat :=
  n * cell + (n - 1) * padding.

(** Modelled from the spec: the Image Composer of section 4.5 (no
    composer is among the sources).  [single] and [horizontal_strip]
    place the batch in one row. *)
Definition compose (padding_px : nat) (layout : Layout)
    (glyphs : list RenderedGlyph) : outcome ComposedImage :=
  match glyphs with
  | [] => Fails EmptyBatchError
  | _ =>
      let rows :=
        match layout with
        | single | horizontal_strip => [glyphs]
        | grid columns => fill_rows columns [] glyphs
        end in
      let cw := max_list (map glyph_width glyphs) in
      let ch := max_list (map glyph_height glyphs) in
      Done {| image_rows := rows;
              cell_width := cw;
              cell_height := ch;
              image_width := span (max_list (map length rows)) cw padding_px;
              image_height := span (length rows) ch padding_px;
              image_chars := map glyph_char glyphs |}
  end.

End Design.

(** * Vocabulary of the statements *)

(** What is left of a list when every path of [removing] has been removed. *)
Definition purge (removing l : list string) : list string :=
  filter (λ y, y ∉ removing) l.

(** [if x not in l: l.insert(0, x)]. *)
Definition prepend_missing (x : string) (l : list string) : list string :=
  if Py.list_in x l then l else x :: l.

Section SetupTerms.

Context (os : OsPath) (package_root : string) (current_dir : option string).

(** The absolute path of the package root directory. *)
Definition pkg_root : string := abspath os package_root.

(** The absolute path of its [aoikpickchardep] subdirectory. *)
Definition dep_root : string :=
  abspath os (path_join os pkg_root "aoikpickchardep").

(** The paths the function removes from [sys.path]. *)
Definition removing : list string :=
  match current_dir with
  | Some d => [""; "."] ++ [abspath os d]
  | None => [""; "."]
  end.

(** What an [assert cond] lets through on this platform. *)
Definition asserted (cond : bool) : bool := negb (assertions os) || cond.

(** The four assertions of the function. *)
Definition roots_exist : bool :=
  isabs os pkg_root && isdir os pkg_root
  && isabs os dep_root && isdir os dep_root.

(** The four assertions as this platform runs them. *)
Definition checks_pass : bool :=
  asserted (isabs os pkg_root && isdir os pkg_root)
  && asserted (isabs os dep_root && isdir os dep_root).

(** The value of [PYTHONPATH] the function reads. *)
Definition pythonpath (s : State) : string :=
  default "" (environ s !! "PYTHONPATH").

(** The entries of [PYTHONPATH]: its fields between separators. *)
Definition pythonpath_entries (s : State) : list string :=
  Py.split (pathsep os) (pythonpath s).

Definition new_sys_path (s : State) : list string :=
  prepend_missing dep_root
    (prepend_missing pkg_root (purge removing (sys_path s))).

Definition new_dirs (s : State) : list string :=
  prepend_missing dep_root
    (prepend_missing pkg_root (map (abspath os) (pythonpath_entries s))).

Definition after_setup (s : State) : State :=
  mkState (new_sys_path s)
    (<["PYTHONPATH" := Py.join (String (pathsep os) EmptyString) (new_dirs s)]>
       (environ s))
    (stdout s) (stderr s).

End SetupTerms.

(** A path on which [abspath] has nothing left to do and whose absolute
    form can be an entry of [PYTHONPATH]. *)
Definition stable (os : OsPath) (p : string) : Prop :=
  abspath os (abspath os p) = abspath os p
  ∧ Py.contains (pathsep os) (abspath os p) = false.

(** The text the last handler of [main] writes for the exception [e]. *)
Definition traceback_msg (it : Interp) (e : Py.exn) : string :=
  "Traceback:" +:+ nl +:+ "---" +:+ nl +:+ format_exc it e +:+ "---" +:+ nl.

(** The first statement of [main]: the call of [run_setup_syspath]. *)
Definition main_setup (os : OsPath) (it : Interp) : M unit :=
  run_setup_syspath os it
    (dirname os (dirname os (abspath os (this_file it))))
    (Some (dirname os (abspath os (this_file it)))).

(** The path [run_setup_syspath] looks for [main_init.py] at. *)
Definition main_init_path (os : OsPath) (package_root : string) : string :=
  path_join os (path_join os (abspath os package_root) "aoikpickchar")
    "main_init.py".

(** The two arguments [main] passes to [run_setup_syspath]: the directory
    above the one of [__main__.py], and the directory of [__main__.py]. *)
Definition launcher_root (os : OsPath) (it : Interp) : string :=
  dirname os (dirname os (abspath os (this_file it))).
Definition launcher_dir (os : OsPath) (it : Interp) : string :=
  dirname os (abspath os (this_file it)).

(** [ceil_div n c] is the ceiling of [n / c]. *)
Definition ceil_div (n c : nat) : nat := (n + c - 1) / c.

(** * Concrete runs *)

(** A checkout at [/repo]: the package root [/repo/src] with its
    dependency directory, and the launcher's two files. *)
Definition os_repo : OsPath :=
  Posix.os "/home/user"
    ["/repo/src"; "/repo/src/aoikpickchardep"; "/repo/src/aoikpickchar"]
    ["/repo/src/aoikpickchar/main_init.py"; "/repo/src/aoikpickchar/__main__.py"].

(** The checkout without its dependency directory. *)
Definition os_no_dep : OsPath :=
  Posix.os "/home/user" ["/repo/src"; "/repo/src/aoikpickchar"]
    ["/repo/src/aoikpickchar/main_init.py"; "/repo/src/aoikpickchar/__main__.py"].

(** The same platform under [python -O]. *)
Definition optimized (os : OsPath) : OsPath :=
  mkOsPath (abspath os) (isabs os) (isdir os) (isfile os) (path_join os)
    (dirname os) (pathsep os) false.

(** An interpreter state with the script directory, the empty path and
    [.] on [sys.path]. *)
Definition st_repo : State :=
  mkState [""; "/repo/src/aoikpickchar"; "/usr/lib/python3"; "."; ""]
    {["PYTHONPATH" := "/opt/lib"]} "" "".

(** The state [python /repo/src/aoikpickchar/__main__.py] starts in. *)
Definition st_boot : State :=
  mkState ["/repo/src/aoikpickchar"; "/usr/lib/python3"] ∅ "" "".

(** An interpreter started from the checkout, with no [PIL] installed and
    a console that takes every write. *)
Definition it_no_PIL : Interp :=
  mkInterp "/repo/src/aoikpickchar/__main__.py"
    (λ _ _, None)
    (λ _, Some (Py.ImportError "No module named 'PIL'"))
    (λ _ _, None)
    (λ e, Py.exn_class e +:+ ": " +:+ Py.exn_msg e +:+ nl).

(** The same with [PIL] installed. *)
Definition it_PIL : Interp :=
  mkInterp "/repo/src/aoikpickchar/__main__.py"
    (λ _ _, None) (λ _, None) (λ _ _, None)
    (λ e, Py.exn_class e +:+ ": " +:+ Py.exn_msg e +:+ nl).

(** The same, on a console whose error stream refuses every write. *)
Definition it_closed_stderr (pil : option Py.exn) : Interp :=
  mkInterp "/repo/src/aoikpickchar/__main__.py"
    (λ _ _, None) (λ _, pil)
    (λ _ _, Some (Py.OSError "Bad file descriptor"))
    (λ e, Py.exn_class e +:+ ": " +:+ Py.exn_msg e +:+ nl).

(** The same, where the user interrupts the write of the traceback. *)
Definition it_interrupted_write : Interp :=
  mkInterp "/repo/src/aoikpickchar/__main__.py"
    (λ _ _, None) (λ _, None)
    (λ _ _, Some Py.KeyboardInterrupt)
    (λ e, Py.exn_class e +:+ ": " +:+ Py.exn_msg e +:+ nl).

(** The core as the sources at hand have it: the module is missing. *)
Definition core_missing : Core :=
  mkCore (raise (Py.ImportError "No module named 'aoikpickchar.main_inner'"))
         (λ _, ret 0%Z).

(** A core that prints and succeeds. *)
Definition core_prints : Core :=
  mkCore (ret tt)
         (λ _ s, (mkState (sys_path s) (environ s) (stdout s +:+ "done")
                    (stderr s), Ok 0%Z)).

(** A core that prints, then fails. *)
Definition core_fails (e : Py.exn) : Core :=
  mkCore (ret tt)
         (λ _ s, (mkState (sys_path s) (environ s) (stdout s +:+ "start")
                    (stderr s), Raise e)).

(** A generator for the concrete runs: a linear congruential one. *)
Definition lcg_draw (g : Z) (bound : nat) : nat * Z :=
  (Z.to_nat (g mod Z.of_nat bound), (1103515245 * g + 12345) mod 2147483648)%Z.

(** A glyph for the concrete runs: a 2 by 3 canvas. *)
Definition box (c : N) : Design.RenderedGlyph :=
  Design.mkGlyph c 2 3 [0; 0; 0; 0; 0; 0]%Z.

(** * Properties *)

(** ** The built-ins and the POSIX model on examples *)

Example split_examples :
  Py.split ":" "" = [""]
  ∧ Py.split ":" "/a:b:" = ["/a"; "b"; ""]
  ∧ Py.join ":" ["/a"; "b"; ""] = "/a:b:".
Proof. repeat split. Qed.

Example normpath_examples :
  Posix.normpath "/a/./b/../c//" = "/a/c"
  ∧ Posix.normpath "//a" = "//a"
  ∧ Posix.normpath "///a/.." = "/"
  ∧ Posix.normpath "../a/../.." = "../.."
  ∧ Posix.normpath "" = ".".
Proof. repeat split. Qed.

Example abspath_examples :
  Posix.abspath "/home/user" "" = "/home/user"
  ∧ Posix.abspath "/home/user" "../x" = "/home/x"
  ∧ Posix.abspath "/home/user" "/repo/src/" = "/repo/src".
Proof. repeat split. Qed.

Example dirname_examples :
  Posix.dirname "/repo/src/aoikpickchar/__main__.py" = "/repo/src/aoikpickchar"
  ∧ Posix.dirname "/repo/src/aoikpickchar" = "/repo/src"
  ∧ Posix.dirname "/a" = "/"
  ∧ Posix.dirname "a" = "".
Proof. repeat split. Qed.

Example join_examples :
  Posix.join "/repo/src" "aoikpickchardep" = "/repo/src/aoikpickchardep"
  ∧ Posix.join "/repo/src/" "x" = "/repo/src/x"
  ∧ Posix.join "/repo/src" "/x" = "/x".
Proof. repeat split. Qed.

(** ** Strings and lists *)

Lemma list_remove_None (x : string) (l : list string) :
  Py.list_remove x l = None → filter (λ y, y ≠ x) l = l.
Proof.
  induction l as [|y l IH]; simpl; [reflexivity|].
  destruct (decide (y = x)) as [->|Hne]; [discriminate|].
  destruct (Py.list_remove x l); [discriminate|].
  intros _. rewrite filter_cons_True by assumption. f_equal. apply IH. reflexivity.
Qed.

Lemma list_remove_Some (x : string) (l r : list string) :
  Py.list_remove x l = Some r →
  filter (λ y, y ≠ x) r = filter (λ y, y ≠ x) l.
Proof.
  revert r. induction l as [|y l IH]; intros r; simpl; [discriminate|].
  destruct (decide (y = x)) as [->|Hne].
  - intros [= <-]. rewrite filter_cons_False; [reflexivity|]. intros H; apply H; reflexivity.
  - destruct (Py.list_remove x l) as [r'|]; [|discriminate].
    intros [= <-]. rewrite !filter_cons_True by assumption.
    f_equal. apply IH. reflexivity.
Qed.

(** The loop removes every occurrence of [path] and ends normally. *)
Lemma remove_loop_filter (path : string) (s : State) :
  remove_loop path s
  = (set_sys_path (filter (λ y, y ≠ path) (sys_path s)) s, Ok tt).
Proof.
  funelim (remove_loop path s).
  all: unfold sys_path_remove in *.
  all: destruct (Py.list_remove path (sys_path s)) as [r|] eqn:Hr.
  all: match goal with
       | e : (_, _) = (_, _) |- _ =>
           first [discriminate e | injection e as ? ?; subst]
       end.
  - match goal with IH : remove_loop _ _ = _ |- _ => rewrite IH end.
    simpl. rewrite (list_remove_Some _ _ _ Hr). reflexivity.
  - simpl. rewrite (list_remove_None _ _ Hr). destruct s'; reflexivity.
Qed.

Lemma filter_all {A} (P : A → Prop) `{∀ x, Decision (P x)} (l : list A) :
  (∀ x, x ∈ l → P x) → filter P l = l.
Proof.
  induction l as [|y l IH]; intros HP; [reflexivity|].
  rewrite filter_cons_True by (apply HP; left).
  f_equal. apply IH. intros x Hx. apply HP. right. exact Hx.
Qed.

Lemma for_each_remove_loop (removing : list string) (s : State) :
  for_each removing (λ path, remove_loop path) s
  = (set_sys_path (purge removing (sys_path s)) s, Ok tt).
Proof.
  revert s. induction removing as [|p R IH]; intros s; simpl.
  - unfold ret, purge. rewrite filter_all; [destruct s; reflexivity|].
    intros x _; apply not_elem_of_nil.
  - unfold bind. rewrite remove_loop_filter, IH. simpl.
    unfold purge, set_sys_path. simpl. f_equal. f_equal.
    rewrite list_filter_filter. apply list_filter_iff.
    intros x. rewrite not_elem_of_cons. tauto.
Qed.

Lemma split_nonempty (sep : ascii) (s : string) : Py.split sep s ≠ [].
Proof.
  destruct s as [|c s]; simpl; [discriminate|].
  destruct (Ascii.eqb c sep); [discriminate|].
  destruct (Py.split sep s); discriminate.
Qed.

Lemma split_no_sep (sep : ascii) (s : string) :
  Py.contains sep s = false → Py.split sep s = [s].
Proof.
  induction s as [|c s IH]; simpl; [reflexivity|].
  intros H. apply orb_false_iff in H as [Hc Hs].
  rewrite Hc, (IH Hs). reflexivity.
Qed.

Lemma split_app_sep (sep : ascii) (x y : string) :
  Py.split sep (x +:+ String sep y) = Py.split sep x ++ Py.split sep y.
Proof.
  induction x as [|c x IH]; simpl.
  - rewrite Ascii.eqb_refl. reflexivity.
  - rewrite IH. destruct (Ascii.eqb c sep); [reflexivity|].
    pose proof (split_nonempty sep x) as Hne.
    destruct (Py.split sep x); [contradiction|reflexivity].
Qed.

(** Splitting a joined list gives back the fields of its elements. *)
Lemma split_join (sep : ascii) (l : list string) :
  l ≠ [] →
  Py.split sep (Py.join (String sep EmptyString) l)
  = concat (map (Py.split sep) l).
Proof.
  induction l as [|x l IH]; [contradiction|]. intros _.
  destruct l as [|y l].
  - simpl. rewrite app_nil_r. reflexivity.
  - change (Py.join (String sep "") (x :: y :: l))
      with (x +:+ String sep (Py.join (String sep "") (y :: l))).
    rewrite split_app_sep, IH by discriminate. reflexivity.
Qed.

Lemma split_join_id (sep : ascii) (l : list string) :
  l ≠ [] → Forall (λ p, Py.contains sep p = false) l →
  Py.split sep (Py.join (String sep EmptyString) l) = l.
Proof.
  intros Hne Hl. rewrite split_join by assumption. clear Hne.
  induction Hl as [|x l Hx _ IH]; [reflexivity|].
  simpl. rewrite (split_no_sep _ _ Hx), IH. reflexivity.
Qed.

Lemma join_split (sep : ascii) (s : string) :
  Py.join (String sep EmptyString) (Py.split sep s) = s.
Proof.
  induction s as [|c s IH]; simpl; [reflexivity|].
  destruct (Ascii.eqb_spec c sep) as [->|Hne].
  - pose proof (split_nonempty sep s) as Hs.
    destruct (Py.split sep s) as [|w ws] eqn:E; [contradiction|].
    change (Py.join (String sep "") ("" :: w :: ws))
      with (String sep (Py.join (String sep "") (w :: ws))).
    rewrite IH. reflexivity.
  - destruct (Py.split sep s) as [|w ws] eqn:E.
    + exfalso. exact (split_nonempty sep s E).
    + rewrite <- IH. destruct ws; reflexivity.
Qed.

Lemma list_in_true (x : string) (l : list string) :
  Py.list_in x l = true ↔ x ∈ l.
Proof. unfold Py.list_in. apply bool_decide_eq_true. Qed.

Lemma list_in_false (x : string) (l : list string) :
  Py.list_in x l = false ↔ x ∉ l.
Proof. unfold Py.list_in. apply bool_decide_eq_false. Qed.

(** ** [setup_syspath] in closed form *)

Lemma elem_of_prepend_missing (x y : string) (l : list string) :
  y ∈ prepend_missing x l ↔ y = x ∨ y ∈ l.
Proof.
  unfold prepend_missing. destruct (Py.list_in x l) eqn:E.
  - apply list_in_true in E. split; [tauto|]. intros [->|H]; assumption.
  - apply elem_of_cons.
Qed.

Lemma insert_if_missing (x : string) (l : list string) :
  (if negb (Py.list_in x l) then Py.list_insert 0 x l else l)
  = prepend_missing x l.
Proof. unfold prepend_missing. destruct (Py.list_in x l); reflexivity. Qed.

Lemma prepend_step {A} (x : string) (k : M A) (s : State) :
  bind (not_in_sys_path x)
    (λ missing, bind (when missing (sys_path_insert 0 x)) (λ _, k)) s
  = k (set_sys_path (prepend_missing x (sys_path s)) s).
Proof.
  destruct s as [l env out err].
  unfold bind, not_in_sys_path, when, sys_path_insert, set_sys_path. simpl.
  rewrite <- insert_if_missing.
  destruct (Py.list_in x l); reflexivity.
Qed.

(** Two assertions in a row with the same message. *)
Lemma assert_pair {A} (enabled c1 c2 : bool) (msg : string) (k : M A)
    (s : State) :
  bind (assert enabled c1 msg) (λ _, bind (assert enabled c2 msg) (λ _, k)) s
  = if negb enabled || (c1 && c2) then k s
    else (s, Raise (Py.AssertionError msg)).
Proof. destruct enabled, c1, c2; reflexivity. Qed.

(** The function in closed form, failures included: the removals are done
    before the first assertion, the package root is added before the
    third, and [PYTHONPATH] is written last. *)
Lemma setup_syspath_run (os : OsPath) (package_root : string)
    (current_dir : option string) (s : State) :
  setup_syspath os package_root current_dir s
  = let pkg := pkg_root os package_root in
    let dep := dep_root os package_root in
    let rest := purge (removing os current_dir) (sys_path s) in
    if asserted os (isabs os pkg && isdir os pkg) then
      if asserted os (isabs os dep && isdir os dep)
      then (after_setup os package_root current_dir s, Ok tt)
      else (set_sys_path (prepend_missing pkg rest) s,
            Raise (Py.AssertionError dep))
    else (set_sys_path rest s, Raise (Py.AssertionError pkg)).
Proof.
  cbv zeta. unfold setup_syspath.
  change (match current_dir with
          | Some d => [""; "."] ++ [abspath os d]
          | None => [""; "."]
          end) with (removing os current_dir).
  fold (pkg_root os package_root). fold (dep_root os package_root).
  unfold bind at 1. rewrite for_each_remove_loop.
  rewrite assert_pair.
  fold (asserted os (isabs os (pkg_root os package_root)
                     && isdir os (pkg_root os package_root))).
  destruct (asserted os (isabs os (pkg_root os package_root)
                         && isdir os (pkg_root os package_root)));
    [|reflexivity].
  rewrite prepend_step, assert_pair.
  fold (asserted os (isabs os (dep_root os package_root)
                     && isdir os (dep_root os package_root))).
  destruct (asserted os (isabs os (dep_root os package_root)
                         && isdir os (dep_root os package_root)));
    [|reflexivity].
  rewrite prepend_step.
  unfold bind, environ_get. cbv beta iota.
  rewrite !insert_if_missing.
  unfold environ_set, after_setup, new_sys_path,
    new_dirs, pythonpath_entries, pythonpath. simpl. reflexivity.
Qed.

Lemma setup_syspath_passes (os : OsPath) (package_root : string)
    (current_dir : option string) (s : State) :
  checks_pass os package_root = true →
  setup_syspath os package_root current_dir s
  = (after_setup os package_root current_dir s, Ok tt).
Proof.
  unfold checks_pass. rewrite andb_true_iff. intros [H1 H2].
  rewrite setup_syspath_run. cbv zeta. rewrite H1, H2. reflexivity.
Qed.

Lemma roots_exist_checks_pass (os : OsPath) (package_root : string) :
  roots_exist os package_root = true → checks_pass os package_root = true.
Proof.
  unfold roots_exist, checks_pass, asserted.
  rewrite !andb_true_iff. intros [[[H1 H2] H3] H4].
  rewrite H1, H2, H3, H4, !orb_true_r. auto.
Qed.

Lemma setup_syspath_Ok (os : OsPath) (package_root : string)
    (current_dir : option string) (s : State) :
  roots_exist os package_root = true →
  setup_syspath os package_root current_dir s = (after_setup os package_root current_dir s, Ok tt).
Proof.
  intros H. apply setup_syspath_passes, roots_exist_checks_pass. exact H.
Qed.

Lemma setup_syspath_Ok_inv (os : OsPath) (package_root : string)
    (current_dir : option string) (s s' : State) (u : unit) :
  setup_syspath os package_root current_dir s = (s', Ok u) →
  checks_pass os package_root = true
  ∧ s' = after_setup os package_root current_dir s.
Proof.
  rewrite setup_syspath_run. cbv zeta. unfold checks_pass.
  destruct (asserted os (isabs os (pkg_root os package_root)
                         && isdir os (pkg_root os package_root)));
    [|intros [=]].
  destruct (asserted os (isabs os (dep_root os package_root)
                         && isdir os (dep_root os package_root)));
    [|intros [=]].
  intros [= <-]. auto.
Qed.

(** With assertions compiled in, the checks are the four conditions. *)
Lemma checks_pass_roots_exist (os : OsPath) (package_root : string) :
  assertions os = true →
  checks_pass os package_root = roots_exist os package_root.
Proof.
  intros H. unfold checks_pass, roots_exist, asserted. rewrite H. simpl.
  rewrite andb_assoc. reflexivity.
Qed.

Lemma prepend_missing_elem (x : string) (l : list string) :
  x ∈ l → prepend_missing x l = l.
Proof. intros H. unfold prepend_missing. apply list_in_true in H. rewrite H. reflexivity. Qed.

Lemma prepend_missing_fresh (x : string) (l : list string) :
  x ∉ l → prepend_missing x l = x :: l.
Proof. intros H. unfold prepend_missing. apply list_in_false in H. rewrite H. reflexivity. Qed.

Lemma prepend_missing_nonempty (x : string) (l : list string) :
  prepend_missing x l ≠ [].
Proof.
  intros E. assert (H : x ∈ prepend_missing x l) by (apply elem_of_prepend_missing; auto).
  rewrite E in H. inversion H.
Qed.

Lemma elem_of_purge (removing l : list string) (x : string) :
  x ∈ purge removing l ↔ (x ∉ removing) ∧ x ∈ l.
Proof. unfold purge. apply (list_elem_of_filter (λ y, y ∉ removing)). Qed.

Lemma purge_all (removing l : list string) :
  (∀ x, x ∈ l → x ∉ removing) → purge removing l = l.
Proof. intros H. unfold purge. apply filter_all. exact H. Qed.

Lemma count_occ_prepend_missing (x p : string) (l : list string) :
  count_occ string_dec (prepend_missing x l) p
  ≤ Nat.max 1 (count_occ string_dec l p).
Proof.
  unfold prepend_missing. destruct (Py.list_in x l) eqn:E; [lia|].
  apply list_in_false in E. simpl.
  destruct (string_dec x p) as [->|Hne]; [|lia].
  rewrite (proj1 (count_occ_not_In string_dec l p)); [lia|].
  rewrite <- list_elem_of_In. exact E.
Qed.

(** Running the two [sys.path] steps again changes nothing, unless the
    package root is itself one of the removed paths. *)
Lemma new_sys_path_twice (removing l : list string) (pkg dep : string) :
  pkg ∉ removing →
  let once := prepend_missing dep (prepend_missing pkg (purge removing l)) in
  prepend_missing dep (prepend_missing pkg (purge removing once)) = once.
Proof.
  intros Hpkg. simpl.
  set (F := purge removing l).
  set (L1 := prepend_missing pkg F).
  assert (HF : ∀ x, x ∈ F → x ∉ removing)
    by (intros x Hx; apply elem_of_purge in Hx; tauto).
  assert (HL1 : ∀ x, x ∈ L1 → x ∉ removing).
  { intros x Hx. apply elem_of_prepend_missing in Hx as [->|Hx]; auto. }
  assert (HpL1 : pkg ∈ L1) by (apply elem_of_prepend_missing; auto).
  destruct (decide (dep ∈ removing)) as [Hdep|Hdep].
  - assert (HdL1 : dep ∉ L1) by (intros H; exact (HL1 _ H Hdep)).
    rewrite (prepend_missing_fresh dep L1 HdL1).
    unfold purge at 1. rewrite filter_cons_False by (intros H; exact (H Hdep)).
    fold (purge removing L1). rewrite (purge_all _ _ HL1).
    rewrite (prepend_missing_elem pkg L1 HpL1).
    apply prepend_missing_fresh. exact HdL1.
  - set (S1 := prepend_missing dep L1).
    assert (HS1 : ∀ x, x ∈ S1 → x ∉ removing).
    { intros x Hx. apply elem_of_prepend_missing in Hx as [->|Hx]; auto. }
    rewrite (purge_all _ _ HS1).
    rewrite (prepend_missing_elem pkg S1)
      by (apply elem_of_prepend_missing; auto).
    apply prepend_missing_elem. apply elem_of_prepend_missing; auto.
Qed.

Lemma new_dirs_twice (os : OsPath) (pkg dep : string) (entries : list string) :
  abspath os pkg = pkg → abspath os dep = dep →
  Py.contains (pathsep os) pkg = false →
  Py.contains (pathsep os) dep = false →
  Forall (stable os) entries →
  let once :=
    prepend_missing dep (prepend_missing pkg (map (abspath os) entries)) in
  prepend_missing dep
    (prepend_missing pkg
       (map (abspath os)
          (Py.split (pathsep os)
             (Py.join (String (pathsep os) EmptyString) once))))
  = once.
Proof.
  intros Hp Hd Hps Hds Hent. simpl.
  set (D0 := map (abspath os) entries).
  set (once := prepend_missing dep (prepend_missing pkg D0)).
  assert (HD0 : Forall (λ p, abspath os p = p
                             ∧ Py.contains (pathsep os) p = false) D0).
  { unfold D0. apply Forall_fmap. eapply Forall_impl; [exact Hent|].
    intros x [H1 H2]. split; assumption. }
  assert (Honce : Forall (λ p, abspath os p = p
                               ∧ Py.contains (pathsep os) p = false) once).
  { apply Forall_forall. intros x Hx.
    apply elem_of_prepend_missing in Hx as [->|Hx]; [auto|].
    apply elem_of_prepend_missing in Hx as [->|Hx]; [auto|].
    rewrite Forall_forall in HD0. apply HD0. exact Hx. }
  rewrite split_join_id.
  - assert (Hmap : map (abspath os) once = once).
    { clear -Honce. induction Honce as [|x l [Hx _] _ IH]; [reflexivity|].
      simpl. rewrite Hx, IH. reflexivity. }
    rewrite Hmap.
    rewrite (prepend_missing_elem pkg once).
    + apply prepend_missing_elem. apply elem_of_prepend_missing; auto.
    + apply elem_of_prepend_missing. right.
      apply elem_of_prepend_missing. auto.
  - apply prepend_missing_nonempty.
  - eapply Forall_impl; [exact Honce|]. intros x [_ H]. exact H.
Qed.

(** ** [setup_syspath]: claims C4, C8 and C9 *)

(** C4, as stated, fails: a package root whose absolute path holds the
    path separator is joined into [PYTHONPATH] but is not one of its
    entries afterwards. *)
Lemma setup_syspath_pathsep_counterexample :
  let os := Posix.os "/home/user" ["/a:b"; "/a:b/aoikpickchardep"] [] in
  ∃ s', setup_syspath os "/a:b" None (mkState [] ∅ "" "") = (s', Ok tt)
        ∧ pkg_root os "/a:b" ∈ sys_path s'
        ∧ pkg_root os "/a:b" ∉ pythonpath_entries os s'.
Proof.
  eexists. split; [vm_compute; reflexivity|]. split.
  - vm_compute. apply list_in_true. vm_compute. reflexivity.
  - apply list_in_false. vm_compute. reflexivity.
Qed.

(** C4 (amended): after [setup_syspath] returns, the absolute paths of the
    package root and of its [aoikpickchardep] subdirectory are both in
    [sys.path], each prepended if it was not there after the removals; the
    new value of [PYTHONPATH] joins the old entries made absolute, with
    each root prepended if it was not among them; and a root that does not
    hold the path separator is among the entries of [PYTHONPATH]. *)
Theorem setup_syspath_adds_roots (os : OsPath) (package_root : string)
    (current_dir : option string) (s s' : State) :
  setup_syspath os package_root current_dir s = (s', Ok tt) →
  (pkg_root os package_root ∈ sys_path s'
   ∧ dep_root os package_root ∈ sys_path s')
  ∧ sys_path s'
    = prepend_missing (dep_root os package_root)
        (prepend_missing (pkg_root os package_root)
           (purge (removing os current_dir) (sys_path s)))
  ∧ pythonpath s'
    = Py.join (String (pathsep os) EmptyString)
        (prepend_missing (dep_root os package_root)
           (prepend_missing (pkg_root os package_root)
              (map (abspath os) (pythonpath_entries os s))))
  ∧ (Py.contains (pathsep os) (pkg_root os package_root) = false →
     pkg_root os package_root ∈ pythonpath_entries os s')
  ∧ (Py.contains (pathsep os) (dep_root os package_root) = false →
     dep_root os package_root ∈ pythonpath_entries os s').
Proof.
  intros Hrun.
  apply setup_syspath_Ok_inv in Hrun as [_ ->].
  assert (Hval : pythonpath (after_setup os package_root current_dir s)
                 = Py.join (String (pathsep os) EmptyString)
                     (new_dirs os package_root s)).
  { unfold pythonpath, after_setup. simpl. rewrite lookup_insert_eq. reflexivity. }
  assert (Hin : ∀ x, x ∈ new_dirs os package_root s →
                Py.contains (pathsep os) x = false →
                x ∈ pythonpath_entries os
                      (after_setup os package_root current_dir s)).
  { intros x Hel Hx. unfold pythonpath_entries. rewrite Hval.
    rewrite split_join by apply prepend_missing_nonempty.
    apply list_elem_of_In, in_concat. exists [x]. split; [|left; reflexivity].
    apply in_map_iff. exists x. split; [apply split_no_sep; exact Hx|].
    apply list_elem_of_In. exact Hel. }
  repeat split.
  - simpl. unfold new_sys_path. rewrite !elem_of_prepend_missing. auto.
  - simpl. unfold new_sys_path. rewrite !elem_of_prepend_missing. auto.
  - exact Hval.
  - apply Hin. unfold new_dirs. rewrite !elem_of_prepend_missing. auto.
  - apply Hin. unfold new_dirs. rewrite !elem_of_prepend_missing. auto.
Qed.

Lemma setup_syspath_adds_roots_witness :
  let s' := fst (setup_syspath os_repo "/repo/src"
                   (Some "/repo/src/aoikpickchar") st_repo) in
  "/repo/src" ∈ sys_path s'
  ∧ pythonpath s' = "/repo/src/aoikpickchardep:/repo/src:/opt/lib"
  ∧ "/repo/src" ∈ pythonpath_entries os_repo s'.
Proof.
  pose proof (setup_syspath_adds_roots os_repo "/repo/src"
                (Some "/repo/src/aoikpickchar") st_repo
                (fst (setup_syspath os_repo "/repo/src"
                        (Some "/repo/src/aoikpickchar") st_repo))) as H.
  destruct H as [[H1 _] [_ [H3 [H4 _]]]]; [vm_compute; reflexivity|].
  split; [exact H1|]. split.
  - rewrite H3. vm_compute. reflexivity.
  - apply H4. vm_compute. reflexivity.
Defined.

(** C8: after [setup_syspath] returns, a path among ['']; ['.'] and, when
    [current_dir] is given, its absolute path occurs in [sys.path] only if
    it is the package root or the dependency root, and then once: every
    occurrence was removed, and the roots are added back at most once. *)
Theorem setup_syspath_removes (os : OsPath) (package_root : string)
    (current_dir : option string) (s s' : State) (p : string) :
  setup_syspath os package_root current_dir s = (s', Ok tt) →
  p = "" ∨ p = "." ∨ (∃ d, current_dir = Some d ∧ p = abspath os d) →
  (p ∈ sys_path s' →
   p = pkg_root os package_root ∨ p = dep_root os package_root)
  ∧ count_occ string_dec (sys_path s') p ≤ 1.
Proof.
  intros Hrun Hp.
  apply setup_syspath_Ok_inv in Hrun as [_ ->].
  assert (HpR : p ∈ removing os current_dir).
  { unfold removing. destruct Hp as [->|[->|[d [-> ->]]]].
    - destruct current_dir; simpl; left.
    - destruct current_dir; simpl; right; left.
    - simpl. right. right. left. }
  assert (Hgone : p ∉ purge (removing os current_dir) (sys_path s)).
  { intros H. apply elem_of_purge in H as [H _]. exact (H HpR). }
  simpl. unfold new_sys_path. split.
  - rewrite !elem_of_prepend_missing. intros [H|[H|H]]; auto. contradiction.
  - pose proof (count_occ_prepend_missing (dep_root os package_root) p
                  (prepend_missing (pkg_root os package_root)
                     (purge (removing os current_dir) (sys_path s)))) as H1.
    pose proof (count_occ_prepend_missing (pkg_root os package_root) p
                  (purge (removing os current_dir) (sys_path s))) as H2.
    rewrite (proj1 (count_occ_not_In string_dec
                      (purge (removing os current_dir) (sys_path s)) p)) in H2
      by (rewrite <- list_elem_of_In; exact Hgone).
    lia.
Qed.

Lemma setup_syspath_removes_witness :
  ("" ∈ sys_path (fst (setup_syspath os_repo "/repo/src"
                         (Some "/repo/src/aoikpickchar") st_repo)) →
   "" = "/repo/src" ∨ "" = "/repo/src/aoikpickchardep")
  ∧ count_occ string_dec
      (sys_path (fst (setup_syspath os_repo "/repo/src"
                        (Some "/repo/src/aoikpickchar") st_repo))) "" ≤ 1.
Proof.
  apply (setup_syspath_removes os_repo "/repo/src"
           (Some "/repo/src/aoikpickchar") st_repo).
  - vm_compute. reflexivity.
  - left. reflexivity.
Defined.

(** C9, as stated, fails: with the package root as [current_dir], the
    second call removes the package root the first call added and puts it
    back in front of the dependency root. *)
Lemma setup_syspath_twice_counterexample :
  let os := Posix.os "/home/user" ["/p"; "/p/aoikpickchardep"] [] in
  ∃ s1 s2,
    setup_syspath os "/p" (Some "/p") (mkState ["/x"] ∅ "" "") = (s1, Ok tt)
    ∧ setup_syspath os "/p" (Some "/p") s1 = (s2, Ok tt)
    ∧ sys_path s1 = ["/p/aoikpickchardep"; "/p"; "/x"]
    ∧ sys_path s2 = ["/p"; "/p/aoikpickchardep"; "/x"]
    ∧ s2 ≠ s1.
Proof.
  eexists. eexists. split; [vm_compute; reflexivity|].
  split; [vm_compute; reflexivity|].
  split; [reflexivity|]. split; [reflexivity|].
  intros H. apply (f_equal sys_path) in H. discriminate H.
Qed.

(** The roots and the old entries of [PYTHONPATH] must survive the round
    trip through the variable as well: a package root that holds the path
    separator is split apart by the second call. *)
Example setup_syspath_twice_pathsep :
  let os := Posix.os "/home/user" ["/a:b"; "/a:b/aoikpickchardep"] [] in
  ∃ s1 s2,
    setup_syspath os "/a:b" None (mkState [] ∅ "" "") = (s1, Ok tt)
    ∧ setup_syspath os "/a:b" None s1 = (s2, Ok tt)
    ∧ pythonpath s1 = "/a:b/aoikpickchardep:/a:b:/home/user"
    ∧ pythonpath s2
      = "/a:b/aoikpickchardep:/a:b:/a:/home/user/b/aoikpickchardep:/a:/home/user/b:/home/user".
Proof.
  eexists. eexists. split; [vm_compute; reflexivity|].
  split; [vm_compute; reflexivity|].
  split; vm_compute; reflexivity.
Qed.

(** Where [isabs] rejects [''] and ['.'], as on every platform, and the
    assertions are compiled in, the package root is one of the removed
    paths only when [current_dir] is the package root itself. *)
Lemma pkg_root_not_removed (os : OsPath) (package_root : string)
    (current_dir : option string) (s s1 : State) :
  setup_syspath os package_root current_dir s = (s1, Ok tt) →
  assertions os = true →
  isabs os "" = false → isabs os "." = false →
  (∀ d, current_dir = Some d → abspath os d ≠ abspath os package_root) →
  pkg_root os package_root ∉ removing os current_dir.
Proof.
  intros Hrun Hdbg H0 H1 Hcur.
  apply setup_syspath_Ok_inv in Hrun as [Hroots _].
  rewrite (checks_pass_roots_exist os package_root Hdbg) in Hroots.
  unfold roots_exist in Hroots. rewrite !andb_true_iff in Hroots.
  destruct Hroots as [[[Habs _] _] _].
  assert (Hne0 : pkg_root os package_root ≠ "") by (intros E; congruence).
  assert (Hne1 : pkg_root os package_root ≠ ".") by (intros E; congruence).
  unfold removing. destruct current_dir as [d|]; simpl.
  - rewrite !not_elem_of_cons. repeat split; try assumption.
    + intros E. exact (Hcur d eq_refl (eq_sym E)).
    + apply not_elem_of_nil.
  - rewrite !not_elem_of_cons. repeat split; try assumption.
    apply not_elem_of_nil.
Qed.

(** C9 (amended): when the package root is not one of the removed paths
    (so [current_dir] is not the package root itself), and the two roots
    and the entries of [PYTHONPATH] are stable (absolute forms that
    [abspath] leaves alone and that hold no path separator), a second call
    with the same arguments returns and leaves the whole state, [sys.path]
    and [PYTHONPATH] included, as the first call left it. *)
Theorem setup_syspath_idempotent (os : OsPath) (package_root : string)
    (current_dir : option string) (s s1 : State) :
  setup_syspath os package_root current_dir s = (s1, Ok tt) →
  pkg_root os package_root ∉ removing os current_dir →
  stable os package_root →
  stable os (path_join os (pkg_root os package_root) "aoikpickchardep") →
  Forall (stable os) (pythonpath_entries os s) →
  setup_syspath os package_root current_dir s1 = (s1, Ok tt).
Proof.
  intros Hrun Hpkg [Hp1 Hp2] [Hd1 Hd2] Hent.
  apply setup_syspath_Ok_inv in Hrun as [Hroots ->].
  rewrite (setup_syspath_passes os package_root current_dir _ Hroots).
  f_equal. unfold after_setup. cbn [sys_path environ stdout stderr].
  f_equal.
  - unfold new_sys_path. cbn [sys_path].
    apply new_sys_path_twice. exact Hpkg.
  - rewrite insert_insert_eq. f_equal. f_equal.
    unfold new_dirs, pythonpath_entries, pythonpath. cbn [environ].
    rewrite lookup_insert_eq. cbn [default].
    apply new_dirs_twice; assumption.
Qed.

Lemma setup_syspath_idempotent_witness :
  let s1 := fst (setup_syspath os_repo "/repo/src"
                   (Some "/repo/src/aoikpickchar") st_repo) in
  setup_syspath os_repo "/repo/src" (Some "/repo/src/aoikpickchar") s1
  = (s1, Ok tt).
Proof.
  apply (setup_syspath_idempotent os_repo "/repo/src"
           (Some "/repo/src/aoikpickchar") st_repo).
  - vm_compute. reflexivity.
  - apply list_in_false. vm_compute. reflexivity.
  - split; vm_compute; reflexivity.
  - split; vm_compute; reflexivity.
  - repeat constructor; vm_compute; reflexivity.
Defined.

(** ** [main]: claims C1, C2, C3 and C10 *)

Lemma main_unfold (os : OsPath) (it : Interp) (core : Core)
    (args : option (list string)) (s : State) :
  main os it core args s
  = match main_body os it core args s with
    | (s1, Ok code) => (s1, Ok code)
    | (s1, Raise e) => main_handler it e s1
    end.
Proof. reflexivity. Qed.

Lemma stderr_write_ok (it : Interp) (msg : string) (s : State) :
  stderr_fault it msg s = None →
  stderr_write it msg s = (set_stderr (stderr s +:+ msg) s, Ok tt).
Proof.
  intros H. unfold stderr_write, bind, lift_fault. rewrite H. reflexivity.
Qed.

Lemma stderr_write_fault (it : Interp) (msg : string) (s : State) (e : Py.exn) :
  stderr_fault it msg s = Some e →
  stderr_write it msg s = (s, Raise e).
Proof.
  intros H. unfold stderr_write, bind, lift_fault. rewrite H. reflexivity.
Qed.

(** The last handler: it returns [-1] when its write goes through, and
    otherwise raises what the write raised. *)
Lemma main_handler_other (it : Interp) (e : Py.exn) (s : State) :
  Py.isinstance e "SystemExit" = false →
  Py.isinstance e "KeyboardInterrupt" = false →
  main_handler it e s
  = match stderr_fault it (traceback_msg it e) s with
    | None => (set_stderr (stderr s +:+ traceback_msg it e) s, Ok (-1)%Z)
    | Some e' => (s, Raise e')
    end.
Proof.
  intros H1 H2. unfold main_handler. rewrite H1, H2.
  fold (traceback_msg it e). unfold bind.
  destruct (stderr_fault it (traceback_msg it e) s) as [e'|] eqn:E.
  - rewrite (stderr_write_fault _ _ _ _ E). reflexivity.
  - rewrite (stderr_write_ok _ _ _ E). reflexivity.
Qed.

Lemma check_deps_missing (it : Interp) (s : State) (e : Py.exn) :
  import_PIL it s = Some e → Py.isinstance e "ImportError" = true →
  check_deps it s = (s, Ok (Some missing_PIL_msg)).
Proof.
  intros H1 H2. unfold check_deps, try_except, bind, lift_fault.
  rewrite H1, H2. reflexivity.
Qed.

(** The run the launcher is for: the dependency is there, the core runs
    and its exit code is the exit code of [main]. *)
Example main_success :
  main os_repo it_PIL core_prints None st_boot
  = (mkState ["/repo/src/aoikpickchardep"; "/repo/src"; "/usr/lib/python3"]
       {["PYTHONPATH" := "/repo/src/aoikpickchardep:/repo/src:/home/user"]}
       "done" "",
     Ok 0%Z).
Proof. vm_compute. reflexivity. Qed.

(** C1, as stated, fails in two ways.  With [PIL] missing and an error
    stream that refuses the write, no message is written and [main] raises
    instead of returning [-100]; with [PIL] missing and no dependency
    directory, [run_setup_syspath] fails first and [main] returns [-1]. *)
Lemma main_missing_PIL_counterexample :
  (∃ s', main os_repo (it_closed_stderr (Some (Py.ImportError "No module named 'PIL'")))
           core_prints None st_boot
         = (s', Raise (Py.OSError "Bad file descriptor"))
         ∧ stderr s' = "")
  ∧ (∃ s', main os_no_dep it_no_PIL core_prints None st_boot = (s', Ok (-1)%Z)).
Proof.
  split; eexists; [split|]; vm_compute; reflexivity.
Qed.

(** C1 (amended): in every run in which [run_setup_syspath] returns,
    [import PIL] raises [ImportError] and the error stream takes the write,
    [main] appends the message of [check_deps] to the error stream and
    returns [-100], which is not the [-1] of the last handler; the result
    is the same for every core, so [main_inner] is neither imported nor
    called. *)
Theorem main_missing_PIL (os : OsPath) (it : Interp)
    (args : option (list string)) (s s1 : State) (e : Py.exn) :
  main_setup os it s = (s1, Ok tt) →
  import_PIL it s1 = Some e →
  Py.isinstance e "ImportError" = true →
  stderr_fault it missing_PIL_msg s1 = None →
  (∀ core : Core,
     main os it core args s
     = (set_stderr (stderr s1 +:+ missing_PIL_msg) s1, Ok (-100)%Z))
  ∧ (∀ e' s2 s3 code,
       Py.isinstance e' "SystemExit" = false →
       Py.isinstance e' "KeyboardInterrupt" = false →
       main_handler it e' s2 = (s3, Ok code) →
       code = (-1)%Z ∧ code ≠ (-100)%Z).
Proof.
  intros Hsetup Himp Hcls Hw. split.
  - intros core. rewrite main_unfold. unfold main_body.
    fold (main_setup os it). unfold bind at 1. rewrite Hsetup.
    unfold bind at 1. rewrite (check_deps_missing it s1 e Himp Hcls).
    unfold bind. rewrite (stderr_write_ok it _ _ Hw). reflexivity.
  - intros e' s2 s3 code H1 H2. rewrite (main_handler_other it e' s2 H1 H2).
    destruct (stderr_fault it (traceback_msg it e') s2); intros [= _ <-].
    split; [reflexivity|discriminate].
Qed.

Lemma main_missing_PIL_witness :
  main os_repo it_no_PIL core_missing None st_boot
  = (mkState ["/repo/src/aoikpickchardep"; "/repo/src"; "/usr/lib/python3"]
       {["PYTHONPATH" := "/repo/src/aoikpickchardep:/repo/src:/home/user"]}
       "" missing_PIL_msg,
     Ok (-100)%Z).
Proof.
  pose proof (main_missing_PIL os_repo it_no_PIL None st_boot
                (fst (main_setup os_repo it_no_PIL st_boot))
                (Py.ImportError "No module named 'PIL'")) as H.
  destruct H as [H _]; [vm_compute; reflexivity ..|].
  rewrite H. vm_compute. reflexivity.
Defined.

(** C2, as stated, fails: when the error stream refuses the write of the
    traceback, the exception of that write leaves [main]; no exit code is
    returned and nothing is written. *)
Lemma main_failure_counterexample :
  ∃ s', main os_repo (it_closed_stderr None)
          (core_fails Py.ValueError) None st_boot
        = (s', Raise (Py.OSError "Bad file descriptor"))
        ∧ stderr s' = "".
Proof. eexists. split; vm_compute; reflexivity. Qed.

(** C2 (amended): for every exception other than [SystemExit] and
    [KeyboardInterrupt] that leaves the [try] block of [main], when the
    error stream takes the write, [main] returns [-1], which is not the
    [-100] of the missing dependency, and appends the traceback text to
    the error stream; the success stream is left as the [try] block left
    it. *)
Theorem main_failure (os : OsPath) (it : Interp) (core : Core)
    (args : option (list string)) (s s1 : State) (e : Py.exn) :
  main_body os it core args s = (s1, Raise e) →
  Py.isinstance e "SystemExit" = false →
  Py.isinstance e "KeyboardInterrupt" = false →
  stderr_fault it (traceback_msg it e) s1 = None →
  ∃ s', main os it core args s = (s', Ok (-1)%Z)
        ∧ (-1)%Z ≠ (-100)%Z
        ∧ stderr s' = stderr s1 +:+ traceback_msg it e
        ∧ stdout s' = stdout s1.
Proof.
  intros Hbody H1 H2 Hw. eexists.
  rewrite main_unfold, Hbody, (main_handler_other it e s1 H1 H2), Hw.
  repeat split. discriminate.
Qed.

Lemma main_failure_witness :
  ∃ s', main os_repo it_PIL (core_fails Py.ValueError) None st_boot
        = (s', Ok (-1)%Z)
        ∧ stderr s' = traceback_msg it_PIL Py.ValueError
        ∧ stdout s' = "start".
Proof.
  destruct (main_failure os_repo it_PIL (core_fails Py.ValueError) None st_boot
              (fst (main_body os_repo it_PIL (core_fails Py.ValueError) None st_boot))
              Py.ValueError) as [s' [H [_ [H1 H2]]]]; [vm_compute; reflexivity ..|].
  exists s'. split; [exact H|]. split; [rewrite H1|rewrite H2]; vm_compute; reflexivity.
Defined.

(** C3, as stated, fails: a [KeyboardInterrupt] raised while the last
    handler writes the traceback is inside [main] and leaves it. *)
Lemma main_interrupt_counterexample :
  ∃ s', main os_repo it_interrupted_write core_missing None st_boot
        = (s', Raise Py.KeyboardInterrupt).
Proof. eexists. vm_compute. reflexivity. Qed.

(** C3 (amended): for every run in which a [KeyboardInterrupt] (that is
    not also a [SystemExit]) leaves the [try] block of [main], whatever
    statement raised it, [main] returns exit code [0] and writes
    nothing. *)
Theorem main_interrupt (os : OsPath) (it : Interp) (core : Core)
    (args : option (list string)) (s s1 : State) (e : Py.exn) :
  main_body os it core args s = (s1, Raise e) →
  Py.isinstance e "KeyboardInterrupt" = true →
  Py.isinstance e "SystemExit" = false →
  main os it core args s = (s1, Ok 0%Z).
Proof.
  intros Hbody H1 H2. rewrite main_unfold, Hbody.
  unfold main_handler. rewrite H2, H1. reflexivity.
Qed.

Lemma main_interrupt_witness :
  ∃ s1, main os_repo it_PIL (core_fails Py.KeyboardInterrupt) None st_boot
        = (s1, Ok 0%Z).
Proof.
  eexists.
  apply (main_interrupt os_repo it_PIL (core_fails Py.KeyboardInterrupt) None
           st_boot _ Py.KeyboardInterrupt); vm_compute; reflexivity.
Defined.




(** ** The design document's picker and composer: claims C6 and C7 *)

Section PickerFacts.

Context {Gen : Type} (seeded : Z → Gen) (draw : Gen → nat → nat * Gen).

Lemma draw_with_replacement_length (n : nat) (g : Gen) (chars : list N) :
  chars ≠ [] →
  length (Design.draw_with_replacement draw n g chars) = n.
Proof.
  intros Hne. revert g. induction n as [|n IH]; intros g; simpl.
  - destruct chars; reflexivity.
  - destruct chars as [|c0 cs] eqn:E; [contradiction|]. rewrite <- E in *.
    destruct (draw g (length chars)) as [i g']. simpl.
    rewrite IH. reflexivity.
Qed.

Lemma draw_with_replacement_elem (n : nat) (g : Gen) (chars : list N) (c : N) :
  c ∈ Design.draw_with_replacement draw n g chars → c ∈ chars.
Proof.
  revert g. induction n as [|n IH]; intros g; simpl.
  - destruct chars; intros H; inversion H.
  - destruct chars as [|c0 cs] eqn:E; [intros H; inversion H|].
    rewrite <- E in *.
    destruct (draw g (length chars)) as [i g'].
    intros H. apply elem_of_cons in H as [->|H]; [|exact (IH _ H)].
    apply list_elem_of_In, nth_In, Nat.mod_upper_bound.
    rewrite E. simpl. lia.
Qed.

End PickerFacts.

(** C6: for every request whose count exceeds the size of its (non-empty)
    pool, picking without replacement fails with [InsufficientPoolError];
    with replacement it succeeds with [count] characters of the pool, and
    the sequence then holds a duplicate. *)
Theorem pick_beyond_pool {Gen : Type}
    (seeded : Z → Gen) (draw : Gen → nat → nat * Gen)
    (entropy : Gen) (req : Design.PickRequest) :
  length (Design.pool req) < Design.count req →
  Design.pool req ≠ [] →
  Design.pick seeded draw entropy false req
  = Design.Fails Design.InsufficientPoolError
  ∧ ∃ chars,
      Design.pick seeded draw entropy true req = Design.Done chars
      ∧ length chars = Design.count req
      ∧ (∀ c, c ∈ chars → c ∈ Design.pool req)
      ∧ ¬ NoDup chars.
Proof.
  intros Hlt Hne. split.
  - unfold Design.pick. apply Nat.ltb_lt in Hlt. rewrite Hlt. reflexivity.
  - eexists. split; [reflexivity|].
    split; [apply draw_with_replacement_length; exact Hne|].
    split; [intros c; apply draw_with_replacement_elem|].
    intros Hnd.
    apply (NoDup_submseteq _ (Design.pool req)) in Hnd;
      [|intros c; apply draw_with_replacement_elem].
    apply submseteq_length in Hnd.
    rewrite draw_with_replacement_length in Hnd by exact Hne. lia.
Qed.

Lemma pick_beyond_pool_witness :
  Design.pick (λ sd, sd) lcg_draw 7%Z false
    (Design.mkPickRequest 4 (Some 42%Z) [65; 66; 67]%N)
  = Design.Fails Design.InsufficientPoolError
  ∧ Design.pick (λ sd, sd) lcg_draw 7%Z true
      (Design.mkPickRequest 4 (Some 42%Z) [65; 66; 67]%N)
    = Design.Done [65; 65; 67; 67]%N.
Proof.
  destruct (pick_beyond_pool (λ sd, sd) lcg_draw 7%Z
              (Design.mkPickRequest 4 (Some 42%Z) [65; 66; 67]%N))
    as [H _]; [simpl; lia|discriminate|].
  split; [exact H|vm_compute; reflexivity].
Defined.

Lemma ceil_div_spec (n c : nat) :
  0 < c → n ≤ ceil_div n c * c ∧ (0 < n → (ceil_div n c - 1) * c < n).
Proof.
  intros Hc. unfold ceil_div.
  pose proof (Nat.div_mod_eq (n + c - 1) c) as H.
  pose proof (Nat.mod_upper_bound (n + c - 1) c ltac:(lia)) as Hm.
  split; [nia|]. intros Hn.
  assert (1 ≤ (n + c - 1) / c) by (apply Nat.div_le_lower_bound; lia).
  nia.
Qed.

Lemma ceil_div_0 (c : nat) : 0 < c → ceil_div 0 c = 0.
Proof. intros Hc. unfold ceil_div. apply Nat.div_small. lia. Qed.

Lemma ceil_div_small (n c : nat) : 0 < n → n ≤ c → ceil_div n c = 1.
Proof.
  intros Hn Hc. unfold ceil_div. symmetry.
  apply (Nat.div_unique _ c 1 (n - 1)); lia.
Qed.

Lemma ceil_div_add (n c : nat) : 0 < c → ceil_div (c + n) c = S (ceil_div n c).
Proof.
  intros Hc. unfold ceil_div.
  replace (c + n + c - 1) with (n + c - 1 + 1 * c) by lia.
  rewrite Nat.div_add by lia. lia.
Qed.

(** The rows of a grid, with [row] the cells already in the current row. *)
Lemma fill_rows_length (c : nat) (glyphs row : list Design.RenderedGlyph) :
  0 < c → length row < c →
  length (Design.fill_rows c row glyphs)
  = ceil_div (length row + length glyphs) c.
Proof.
  intros Hc. revert row.
  induction glyphs as [|g rest IH]; intros row Hrow.
  - rewrite Nat.add_0_r. destruct row as [|r0 row].
    + rewrite ceil_div_0 by exact Hc. reflexivity.
    + rewrite ceil_div_small by (simpl in *; lia). reflexivity.
  - cbn [Design.fill_rows].
    assert (Hlen : length (row ++ [g]) = S (length row))
      by (rewrite length_app; simpl; lia).
    rewrite Hlen.
    destruct (Nat.leb_spec c (S (length row))) as [Hfull|Hroom].
    + cbn [length]. rewrite (IH []) by (simpl; lia).
      replace (length row + S (length rest)) with (c + length rest) by lia.
      rewrite ceil_div_add by exact Hc. reflexivity.
    + rewrite (IH (row ++ [g])) by (rewrite Hlen; lia).
      rewrite Hlen. cbn [length]. f_equal. lia.
Qed.

(** The cells of a grid read row by row are the glyphs in pick order. *)
Lemma fill_rows_concat (c : nat) (glyphs row : list Design.RenderedGlyph) :
  concat (Design.fill_rows c row glyphs) = row ++ glyphs.
Proof.
  revert row. induction glyphs as [|g rest IH]; intros row; simpl.
  - destruct row; simpl; rewrite ?app_nil_r; reflexivity.
  - destruct (c <=? length (row ++ [g])); simpl; rewrite IH.
    + rewrite <- app_assoc. reflexivity.
    + rewrite <- app_assoc. reflexivity.
Qed.

(** C7: the Image Composer fails with [EmptyBatchError] on the empty
    glyph sequence, and composing a non-empty sequence of N glyphs in
    [grid] mode with a (positive) column count C gives a grid of
    ceil(N/C) rows, which hold the glyphs in pick order. *)
Theorem compose_grid_rows (padding_px : nat) :
  (∀ layout,
     Design.compose padding_px layout [] = Design.Fails Design.EmptyBatchError)
  ∧ (∀ glyphs columns,
       glyphs ≠ [] → 0 < columns →
       ∃ image,
         Design.compose padding_px (Design.grid columns) glyphs
         = Design.Done image
         ∧ length (Design.image_rows image) = ceil_div (length glyphs) columns
         ∧ length glyphs ≤ length (Design.image_rows image) * columns
         ∧ (length (Design.image_rows image) - 1) * columns < length glyphs
         ∧ concat (Design.image_rows image) = glyphs).
Proof.
  split; [reflexivity|]. intros glyphs columns Hne Hc.
  destruct glyphs as [|g rest]; [contradiction|].
  eexists. split; [reflexivity|]. cbn [Design.image_rows].
  assert (Hlen : length (Design.fill_rows columns [] (g :: rest))
                 = ceil_div (length (g :: rest)) columns).
  { rewrite fill_rows_length by (simpl; lia). reflexivity. }
  destruct (ceil_div_spec (length (g :: rest)) columns Hc) as [H1 H2].
  rewrite Hlen. repeat split; try assumption.
  - apply H2. simpl. lia.
  - apply fill_rows_concat.
Qed.

Lemma compose_grid_rows_witness :
  ∃ image,
    Design.compose 4 (Design.grid 3) (map box [48; 49; 50; 51; 52; 53; 54]%N)
    = Design.Done image
    ∧ length (Design.image_rows image) = 3.
Proof.
  destruct (compose_grid_rows 4) as [_ H].
  destruct (H (map box [48; 49; 50; 51; 52; 53; 54]%N) 3)
    as [image [H1 [H2 _]]]; [discriminate|lia|].
  exists image. split; [exact H1|exact H2].
Defined.

(** * Further properties of the launcher *)

(** ** [setup_syspath]: every outcome *)



Lemma NoDup_prepend_missing (a : string) (l : list string) :
  NoDup l → NoDup (prepend_missing a l).
Proof.
  intros Hl. unfold prepend_missing. destruct (Py.list_in a l) eqn:E; [exact Hl|].
  apply NoDup_cons. split; [apply list_in_false; exact E|exact Hl].
Qed.

Lemma length_prepend_missing (a : string) (l : list string) :
  length (prepend_missing a l) ≤ S (length l).
Proof. unfold prepend_missing. destruct (Py.list_in a l); simpl; lia. Qed.

Lemma asserted_false (os : OsPath) (cond : bool) :
  asserted os cond = false → assertions os = true ∧ cond = false.
Proof. unfold asserted. destruct (assertions os), cond; auto; discriminate. Qed.

(** X1: how [setup_syspath] fails.  With the assertions compiled in, a
    call that returns has found both roots to be absolute paths of
    existing directories.  A call that raises has not touched
    [os.environ], [PYTHONPATH] included; and when what it raises is an
    [AssertionError], the message is the root that failed its check and
    the failure is not clean: the removals from [sys.path] are already
    done, and when it is the dependency root that failed, the package
    root is already prepended. *)
Theorem setup_syspath_failure (os : OsPath) (package_root : string)
    (current_dir : option string) (s : State) :
  (∀ s', setup_syspath os package_root current_dir s = (s', Ok tt) →
         assertions os = true →
         roots_exist os package_root = true)
  ∧ (∀ s' e,
       setup_syspath os package_root current_dir s = (s', Raise e) →
       environ s' = environ s
       ∧ (Py.exn_class e = "AssertionError" →
          e = Py.AssertionError (pkg_root os package_root)
          ∧ isabs os (pkg_root os package_root)
            && isdir os (pkg_root os package_root) = false
          ∧ sys_path s' = purge (removing os current_dir) (sys_path s)
          ∨ e = Py.AssertionError (dep_root os package_root)
            ∧ isabs os (dep_root os package_root)
              && isdir os (dep_root os package_root) = false
            ∧ sys_path s'
              = prepend_missing (pkg_root os package_root)
                  (purge (removing os current_dir) (sys_path s)))).
Proof.
  split.
  - intros s' H Hdbg. apply setup_syspath_Ok_inv in H as [H _].
    rewrite <- (checks_pass_roots_exist os package_root Hdbg). exact H.
  - intros s' e. rewrite setup_syspath_run. cbv zeta.
    destruct (asserted os (isabs os (pkg_root os package_root)
                           && isdir os (pkg_root os package_root))) eqn:Epkg;
      [destruct (asserted os (isabs os (dep_root os package_root)
                             && isdir os (dep_root os package_root))) eqn:Edep|].
    + intros [=].
    + intros [= <- <-]. apply asserted_false in Edep as [_ Edep].
      split; [reflexivity|]. intros _. right. auto.
    + intros [= <- <-]. apply asserted_false in Epkg as [_ Epkg].
      split; [reflexivity|]. intros _. left. auto.
Qed.

Lemma setup_syspath_failure_witness :
  ∃ s', setup_syspath os_no_dep "/repo/src" (Some "/repo/src/aoikpickchar") st_repo
        = (s', Raise (Py.AssertionError "/repo/src/aoikpickchardep"))
        ∧ sys_path s' = ["/repo/src"; "/usr/lib/python3"]
        ∧ environ s' = environ st_repo
  ∧ roots_exist os_repo "/repo/src" = true.
Proof.
  eexists. split; [vm_compute; reflexivity|].
  destruct (setup_syspath_failure os_no_dep "/repo/src"
              (Some "/repo/src/aoikpickchar") st_repo) as [_ H].
  destruct (H _ (Py.AssertionError "/repo/src/aoikpickchardep") eq_refl)
    as [Henv _].
  split; [reflexivity|]. split; [exact Henv|].
  destruct (setup_syspath_failure os_repo "/repo/src"
              (Some "/repo/src/aoikpickchar") st_repo) as [H' _].
  apply (H' (fst (setup_syspath os_repo "/repo/src"
                    (Some "/repo/src/aoikpickchar") st_repo)));
    vm_compute; reflexivity.
Defined.

(** X2: whatever its outcome, [setup_syspath] writes to neither console
    stream and leaves every environment variable other than [PYTHONPATH]
    as it was. *)
Theorem setup_syspath_frame (os : OsPath) (package_root : string)
    (current_dir : option string) (s s' : State) (r : result unit) :
  setup_syspath os package_root current_dir s = (s', r) →
  stdout s' = stdout s
  ∧ stderr s' = stderr s
  ∧ ∀ name, name ≠ "PYTHONPATH" → environ s' !! name = environ s !! name.
Proof.
  rewrite setup_syspath_run. cbv zeta.
  destruct (asserted os (isabs os (pkg_root os package_root)
                         && isdir os (pkg_root os package_root)));
    [destruct (asserted os (isabs os (dep_root os package_root)
                           && isdir os (dep_root os package_root)))|];
    intros [= <- <-]; repeat split; try reflexivity.
  intros name Hname. simpl. apply lookup_insert_ne. congruence.
Qed.

Lemma setup_syspath_frame_witness :
  let s' := fst (setup_syspath os_repo "/repo/src"
                   (Some "/repo/src/aoikpickchar")
                   (mkState ["."] {["HOME" := "/home/user"]} "out" "err")) in
  stdout s' = "out" ∧ stderr s' = "err"
  ∧ environ s' !! "HOME" = Some "/home/user".
Proof.
  destruct (setup_syspath_frame os_repo "/repo/src"
              (Some "/repo/src/aoikpickchar")
              (mkState ["."] {["HOME" := "/home/user"]} "out" "err")
              _ _ (surjective_pairing _)) as [H1 [H2 H3]].
  split; [exact H1|]. split; [exact H2|].
  rewrite (H3 "HOME") by discriminate. vm_compute. reflexivity.
Defined.

(** The [sys.path] of every outcome: the old list without the removed
    paths, behind the roots that were added. *)
Lemma setup_syspath_sys_path (os : OsPath) (package_root : string)
    (current_dir : option string) (s s' : State) (r : result unit) :
  setup_syspath os package_root current_dir s = (s', r) →
  let rest := purge (removing os current_dir) (sys_path s) in
  sys_path s' = rest
  ∨ sys_path s' = prepend_missing (pkg_root os package_root) rest
  ∨ sys_path s'
    = prepend_missing (dep_root os package_root)
        (prepend_missing (pkg_root os package_root) rest).
Proof.
  rewrite setup_syspath_run. cbv zeta.
  destruct (asserted os (isabs os (pkg_root os package_root)
                         && isdir os (pkg_root os package_root)));
    [destruct (asserted os (isabs os (dep_root os package_root)
                           && isdir os (dep_root os package_root)))|];
    intros [= <- <-]; simpl; auto.
Qed.



(** X4: whatever its outcome, [setup_syspath] adds no duplicate: a
    [sys.path] without repetitions stays without repetitions, and the list
    grows by at most two entries. *)
Theorem setup_syspath_no_duplicates (os : OsPath) (package_root : string)
    (current_dir : option string) (s s' : State) (r : result unit) :
  setup_syspath os package_root current_dir s = (s', r) →
  (NoDup (sys_path s) → NoDup (sys_path s'))
  ∧ length (sys_path s') ≤ length (sys_path s) + 2.
Proof.
  intros Hrun. apply setup_syspath_sys_path in Hrun. cbv zeta in Hrun.
  set (rest := purge (removing os current_dir) (sys_path s)) in *.
  assert (Hlen : length rest ≤ length (sys_path s))
    by apply length_filter.
  split.
  - intros Hnd.
    assert (Hrest : NoDup rest) by (apply NoDup_filter; exact Hnd).
    destruct Hrun as [->|[->| ->]];
      repeat apply NoDup_prepend_missing; exact Hrest.
  - destruct Hrun as [->|[->| ->]].
    + lia.
    + pose proof (length_prepend_missing (pkg_root os package_root) rest). lia.
    + pose proof (length_prepend_missing (pkg_root os package_root) rest).
      pose proof (length_prepend_missing (dep_root os package_root)
                    (prepend_missing (pkg_root os package_root) rest)).
      lia.
Qed.

Lemma setup_syspath_no_duplicates_witness :
  NoDup (sys_path (fst (setup_syspath os_repo "/repo/src"
                          (Some "/repo/src/aoikpickchar")
                          (mkState ["/x"; ""; "/repo/src"; "/y"] ∅ "" "")))).
Proof.
  destruct (setup_syspath_no_duplicates os_repo "/repo/src"
              (Some "/repo/src/aoikpickchar")
              (mkState ["/x"; ""; "/repo/src"; "/y"] ∅ "" "")
              _ _ (surjective_pairing _)) as [H _].
  apply H. simpl.
  repeat (apply NoDup_cons; split;
          [apply list_in_false; vm_compute; reflexivity|]).
  apply NoDup_nil. exact I.
Defined.

Lemma elem_of_split_join (sep : ascii) (l : list string) (x : string) :
  x ∈ l → Py.contains sep x = false →
  x ∈ Py.split sep (Py.join (String sep EmptyString) l).
Proof.
  intros Hel Hx.
  rewrite split_join by (intros ->; inversion Hel).
  apply list_elem_of_In, in_concat. exists [x]. split; [|left; reflexivity].
  apply in_map_iff. exists x. split; [apply split_no_sep; exact Hx|].
  apply list_elem_of_In. exact Hel.
Qed.

Lemma pythonpath_after_setup (os : OsPath) (package_root : string)
    (current_dir : option string) (s : State) :
  pythonpath (after_setup os package_root current_dir s)
  = Py.join (String (pathsep os) EmptyString) (new_dirs os package_root s).
Proof. unfold pythonpath, after_setup. simpl. rewrite lookup_insert_eq. reflexivity. Qed.

(** X5: the dependency root takes precedence over the package root.  When
    [setup_syspath] returns and neither root was left in [sys.path] by the
    removals, the new [sys.path] is the dependency root, then the package
    root, then the old entries that were kept; and when neither is among
    the absolute forms of the old [PYTHONPATH] entries, the new value
    begins with the dependency root, then the package root. *)
Theorem setup_syspath_precedence (os : OsPath) (package_root : string)
    (current_dir : option string) (s s' : State) :
  setup_syspath os package_root current_dir s = (s', Ok tt) →
  dep_root os package_root ≠ pkg_root os package_root →
  (pkg_root os package_root ∉ purge (removing os current_dir) (sys_path s) →
   dep_root os package_root ∉ purge (removing os current_dir) (sys_path s) →
   sys_path s'
   = dep_root os package_root :: pkg_root os package_root
     :: purge (removing os current_dir) (sys_path s))
  ∧ (pkg_root os package_root ∉ map (abspath os) (pythonpath_entries os s) →
     dep_root os package_root ∉ map (abspath os) (pythonpath_entries os s) →
     pythonpath s'
     = dep_root os package_root +:+ String (pathsep os) EmptyString
       +:+ pkg_root os package_root +:+ String (pathsep os) EmptyString
       +:+ Py.join (String (pathsep os) EmptyString)
             (map (abspath os) (pythonpath_entries os s))).
Proof.
  intros Hrun Hne. apply setup_syspath_Ok_inv in Hrun as [_ ->]. split.
  - intros Hp Hd. simpl. unfold new_sys_path.
    rewrite (prepend_missing_fresh _ _ Hp).
    apply prepend_missing_fresh. rewrite not_elem_of_cons. auto.
  - intros Hp Hd. rewrite pythonpath_after_setup. unfold new_dirs.
    rewrite (prepend_missing_fresh _ _ Hp).
    rewrite prepend_missing_fresh by (rewrite not_elem_of_cons; auto).
    pose proof (split_nonempty (pathsep os) (pythonpath s)) as Hs.
    unfold pythonpath_entries in *.
    destruct (Py.split (pathsep os) (pythonpath s)); [contradiction|].
    reflexivity.
Qed.

Lemma setup_syspath_precedence_witness :
  let s' := fst (setup_syspath os_repo "/repo/src"
                   (Some "/repo/src/aoikpickchar") st_repo) in
  sys_path s' = ["/repo/src/aoikpickchardep"; "/repo/src"; "/usr/lib/python3"]
  ∧ pythonpath s' = "/repo/src/aoikpickchardep:/repo/src:/opt/lib".
Proof.
  destruct (setup_syspath_precedence os_repo "/repo/src"
              (Some "/repo/src/aoikpickchar") st_repo
              (fst (setup_syspath os_repo "/repo/src"
                      (Some "/repo/src/aoikpickchar") st_repo)))
    as [H1 H2]; [vm_compute; reflexivity|vm_compute; discriminate|].
  split.
  - rewrite H1 by (apply list_in_false; vm_compute; reflexivity).
    vm_compute. reflexivity.
  - rewrite H2 by (apply list_in_false; vm_compute; reflexivity).
    vm_compute. reflexivity.
Defined.

(** X6: with [PYTHONPATH] unset or empty, [''.split(os.pathsep)] is
    [['']], so [setup_syspath] puts [abspath('')], the working
    directory, into the new [PYTHONPATH] behind the two roots. *)
Theorem setup_syspath_unset_pythonpath (os : OsPath) (package_root : string)
    (current_dir : option string) (s s' : State) :
  setup_syspath os package_root current_dir s = (s', Ok tt) →
  environ s !! "PYTHONPATH" = None ∨ environ s !! "PYTHONPATH" = Some "" →
  pythonpath s'
  = Py.join (String (pathsep os) EmptyString)
      (prepend_missing (dep_root os package_root)
         (prepend_missing (pkg_root os package_root) [abspath os ""]))
  ∧ (Py.contains (pathsep os) (abspath os "") = false →
     abspath os "" ∈ pythonpath_entries os s').
Proof.
  intros Hrun Henv. apply setup_syspath_Ok_inv in Hrun as [_ ->].
  assert (Hold : new_dirs os package_root s
                 = prepend_missing (dep_root os package_root)
                     (prepend_missing (pkg_root os package_root)
                        [abspath os ""])).
  { unfold new_dirs, pythonpath_entries, pythonpath.
    destruct Henv as [-> | ->]; reflexivity. }
  rewrite pythonpath_after_setup, Hold. split; [reflexivity|].
  intros Hsep. unfold pythonpath_entries.
  rewrite pythonpath_after_setup, Hold.
  apply elem_of_split_join; [|exact Hsep].
  rewrite !elem_of_prepend_missing. right. right. left.
Qed.

Lemma setup_syspath_unset_pythonpath_witness :
  let s' := fst (setup_syspath os_repo "/repo/src" None st_boot) in
  pythonpath s' = "/repo/src/aoikpickchardep:/repo/src:/home/user"
  ∧ "/home/user" ∈ pythonpath_entries os_repo s'.
Proof.
  destruct (setup_syspath_unset_pythonpath os_repo "/repo/src" None st_boot
              (fst (setup_syspath os_repo "/repo/src" None st_boot)))
    as [H1 H2]; [vm_compute; reflexivity|left; reflexivity|].
  split.
  - rewrite H1. vm_compute. reflexivity.
  - apply H2. vm_compute. reflexivity.
Defined.

(** X7: on an interpreter that is already set up, [setup_syspath] changes
    nothing.  When the root directories exist, [sys.path] holds both roots
    and none of the paths to remove, and [PYTHONPATH] is set, holds both
    roots and has only entries that [abspath] leaves alone, the call
    returns in the state it was made in. *)
Theorem setup_syspath_noop (os : OsPath) (package_root : string)
    (current_dir : option string) (s : State) (value : string) :
  roots_exist os package_root = true →
  Forall (λ p, p ∉ sys_path s) (removing os current_dir) →
  pkg_root os package_root ∈ sys_path s →
  dep_root os package_root ∈ sys_path s →
  environ s !! "PYTHONPATH" = Some value →
  Forall (λ p, abspath os p = p) (Py.split (pathsep os) value) →
  pkg_root os package_root ∈ Py.split (pathsep os) value →
  dep_root os package_root ∈ Py.split (pathsep os) value →
  setup_syspath os package_root current_dir s = (s, Ok tt).
Proof.
  intros Hroots Hrem Hp Hd Henv Habs Hpe Hde.
  rewrite (setup_syspath_Ok os package_root current_dir s Hroots). f_equal.
  assert (Hsys : new_sys_path os package_root current_dir s = sys_path s).
  { unfold new_sys_path. rewrite purge_all.
    - rewrite (prepend_missing_elem _ _ Hp). apply prepend_missing_elem. exact Hd.
    - intros x Hx Hr. rewrite Forall_forall in Hrem. exact (Hrem x Hr Hx). }
  assert (Hdirs : new_dirs os package_root s = Py.split (pathsep os) value).
  { unfold new_dirs, pythonpath_entries, pythonpath. rewrite Henv. simpl.
    assert (Hmap : map (abspath os) (Py.split (pathsep os) value)
                   = Py.split (pathsep os) value).
    { clear -Habs. induction Habs as [|x l Hx _ IH]; [reflexivity|].
      simpl. rewrite Hx, IH. reflexivity. }
    rewrite Hmap, (prepend_missing_elem _ _ Hpe).
    apply prepend_missing_elem. exact Hde. }
  unfold after_setup. rewrite Hsys, Hdirs, join_split.
  rewrite (insert_id _ _ _ Henv). destruct s; reflexivity.
Qed.

Lemma setup_syspath_noop_witness :
  let s := mkState ["/repo/src/aoikpickchardep"; "/repo/src"; "/usr/lib/python3"]
             {["PYTHONPATH" := "/repo/src/aoikpickchardep:/repo/src:/opt/lib"]}
             "" "" in
  setup_syspath os_repo "/repo/src" (Some "/repo/src/aoikpickchar") s
  = (s, Ok tt).
Proof.
  apply (setup_syspath_noop os_repo "/repo/src" (Some "/repo/src/aoikpickchar")
           _ "/repo/src/aoikpickchardep:/repo/src:/opt/lib").
  - vm_compute. reflexivity.
  - repeat constructor; apply list_in_false; vm_compute; reflexivity.
  - apply list_in_true. vm_compute. reflexivity.
  - apply list_in_true. vm_compute. reflexivity.
  - vm_compute. reflexivity.
  - repeat constructor; vm_compute; reflexivity.
  - apply list_in_true. vm_compute. reflexivity.
  - apply list_in_true. vm_compute. reflexivity.
Defined.

(** ** [run_setup_syspath]: every outcome *)

Lemma assert_one {A} (enabled cond : bool) (msg : string) (k : M A)
    (s : State) :
  bind (assert enabled cond msg) (λ _, k) s
  = if negb enabled || cond then k s
    else (s, Raise (Py.AssertionError msg)).
Proof. destruct enabled, cond; reflexivity. Qed.

Lemma run_setup_syspath_run (os : OsPath) (it : Interp) (package_root : string)
    (current_dir : option string) (s : State) :
  run_setup_syspath os it package_root current_dir s
  = if asserted os (isabs os (abspath os package_root)) then
      if asserted os (isabs os (main_init_path os package_root)
                      && isfile os (main_init_path os package_root)) then
        match load_main_init it (main_init_path os package_root) s with
        | Some e => (s, Raise e)
        | None => setup_syspath os (abspath os package_root) current_dir s
        end
      else (s, Raise (Py.AssertionError (main_init_path os package_root)))
    else (s, Raise (Py.AssertionError (abspath os package_root))).
Proof.
  unfold run_setup_syspath. fold (main_init_path os package_root).
  rewrite assert_one. fold (asserted os (isabs os (abspath os package_root))).
  destruct (asserted os (isabs os (abspath os package_root))); [|reflexivity].
  rewrite assert_pair.
  fold (asserted os (isabs os (main_init_path os package_root)
                     && isfile os (main_init_path os package_root))).
  destruct (asserted os (isabs os (main_init_path os package_root)
                         && isfile os (main_init_path os package_root)));
    [|reflexivity].
  unfold bind, lift_fault.
  destruct (load_main_init it (main_init_path os package_root) s); reflexivity.
Qed.

(** X8: when [run_setup_syspath] returns, [main_init.py] was loaded, both
    roots (of the package root made absolute, and made absolute again by
    [setup_syspath]) are in [sys.path], and the paths [''], ['.'] and
    the absolute [current_dir] are in [sys.path] only as one of the
    roots.  With the assertions compiled in, moreover, the absolute
    package root is an absolute path, [main_init.py] is an existing file
    and both roots are absolute paths of existing directories. *)
Theorem run_setup_syspath_returns (os : OsPath) (it : Interp)
    (package_root : string) (current_dir : option string) (s s' : State) :
  run_setup_syspath os it package_root current_dir s = (s', Ok tt) →
  load_main_init it (main_init_path os package_root) s = None
  ∧ pkg_root os (abspath os package_root) ∈ sys_path s'
  ∧ dep_root os (abspath os package_root) ∈ sys_path s'
  ∧ (∀ p, p = "" ∨ p = "." ∨ (∃ d, current_dir = Some d ∧ p = abspath os d) →
          p ∈ sys_path s' →
          p = pkg_root os (abspath os package_root)
          ∨ p = dep_root os (abspath os package_root))
  ∧ (assertions os = true →
     isabs os (abspath os package_root) = true
     ∧ isfile os (main_init_path os package_root) = true
     ∧ roots_exist os (abspath os package_root) = true).
Proof.
  rewrite run_setup_syspath_run.
  destruct (asserted os (isabs os (abspath os package_root))) eqn:E1;
    [|intros [=]].
  destruct (asserted os (isabs os (main_init_path os package_root)
                         && isfile os (main_init_path os package_root)))
    eqn:E2; [|intros [=]].
  destruct (load_main_init it (main_init_path os package_root) s);
    [intros [=]|].
  intros Hrun. apply setup_syspath_Ok_inv in Hrun as [Hpass ->].
  split; [reflexivity|]. split; [|split; [|split]].
  - simpl. unfold new_sys_path. rewrite !elem_of_prepend_missing. auto.
  - simpl. unfold new_sys_path. rewrite !elem_of_prepend_missing. auto.
  - intros p Hp. simpl. unfold new_sys_path.
    rewrite !elem_of_prepend_missing, elem_of_purge.
    intros [H|[H|[H _]]]; auto. exfalso. apply H.
    unfold removing. destruct Hp as [->|[->|[d [-> ->]]]].
    + destruct current_dir; simpl; left.
    + destruct current_dir; simpl; right; left.
    + simpl. right. right. left.
  - intros Hdbg. unfold asserted in E1, E2. rewrite Hdbg in E1, E2.
    simpl in E1, E2. apply andb_true_iff in E2 as [_ E2].
    rewrite (checks_pass_roots_exist _ _ Hdbg) in Hpass. auto.
Qed.

Lemma run_setup_syspath_returns_witness :
  let s' := fst (run_setup_syspath os_repo it_PIL "/repo/src"
                   (Some "/repo/src/aoikpickchar") st_boot) in
  "/repo/src" ∈ sys_path s'
  ∧ ("/repo/src/aoikpickchar" ∈ sys_path s' →
     "/repo/src/aoikpickchar" = "/repo/src"
     ∨ "/repo/src/aoikpickchar" = "/repo/src/aoikpickchardep")
  ∧ roots_exist os_repo "/repo/src" = true.
Proof.
  destruct (run_setup_syspath_returns os_repo it_PIL "/repo/src"
              (Some "/repo/src/aoikpickchar") st_boot
              (fst (run_setup_syspath os_repo it_PIL "/repo/src"
                      (Some "/repo/src/aoikpickchar") st_boot)))
    as [_ [H1 [_ [H2 H3]]]]; [vm_compute; reflexivity|].
  split; [exact H1|]. split.
  - apply (H2 "/repo/src/aoikpickchar"). right. right.
    exists "/repo/src/aoikpickchar". split; reflexivity.
  - destruct H3 as [_ [_ H3]]; [reflexivity|exact H3].
Defined.

(** X9: a failure of [run_setup_syspath] before [setup_syspath] is
    reached is clean.  When the call raises, either the interpreter state
    is untouched, or [main_init.py] was loaded and the exception and the
    state are those of [setup_syspath] on the absolute package root. *)
Theorem run_setup_syspath_failure (os : OsPath) (it : Interp)
    (package_root : string) (current_dir : option string)
    (s s' : State) (e : Py.exn) :
  run_setup_syspath os it package_root current_dir s = (s', Raise e) →
  s' = s
  ∨ load_main_init it (main_init_path os package_root) s = None
    ∧ setup_syspath os (abspath os package_root) current_dir s = (s', Raise e).
Proof.
  rewrite run_setup_syspath_run.
  destruct (asserted os (isabs os (abspath os package_root)));
    [|intros [= <- <-]; left; reflexivity].
  destruct (asserted os (isabs os (main_init_path os package_root)
                         && isfile os (main_init_path os package_root)));
    [|intros [= <- <-]; left; reflexivity].
  destruct (load_main_init it (main_init_path os package_root) s) as [e'|].
  - intros [= <- <-]. left. reflexivity.
  - intros Hrun. right. auto.
Qed.

Lemma run_setup_syspath_failure_witness :
  fst (run_setup_syspath (Posix.os "/home/user" ["/repo/src"] []) it_PIL
         "/repo/src" (Some "/repo/src/aoikpickchar") st_boot)
  = st_boot.
Proof.
  destruct (run_setup_syspath_failure (Posix.os "/home/user" ["/repo/src"] [])
              it_PIL "/repo/src" (Some "/repo/src/aoikpickchar") st_boot
              (fst (run_setup_syspath (Posix.os "/home/user" ["/repo/src"] [])
                      it_PIL "/repo/src" (Some "/repo/src/aoikpickchar") st_boot))
              (Py.AssertionError "/repo/src/aoikpickchar/main_init.py"))
    as [H|[_ H]]; [vm_compute; reflexivity|exact H|].
  vm_compute in H. discriminate H.
Defined.

(** ** [main]: the paths the claims leave out *)

Lemma check_deps_run (it : Interp) (s : State) :
  check_deps it s
  = match import_PIL it s with
    | None => (s, Ok None)
    | Some e =>
        if Py.isinstance e "ImportError" then (s, Ok (Some missing_PIL_msg))
        else (s, Raise e)
    end.
Proof.
  unfold check_deps, try_except, bind, lift_fault.
  destruct (import_PIL it s) as [e|]; [|reflexivity].
  destruct (Py.isinstance e "ImportError"); reflexivity.
Qed.

(** X10: when the set-up returns, [PIL] imports and the core module
    imports, the exit code of [main] is the value [main_inner] returns for
    the same [args], and the state is the one [main_inner] leaves: [main]
    adds nothing of its own. *)
Theorem main_success_path (os : OsPath) (it : Interp) (core : Core)
    (args : option (list string)) (s s1 s2 s3 : State) (code : Z) :
  main_setup os it s = (s1, Ok tt) →
  import_PIL it s1 = None →
  import_main_inner core s1 = (s2, Ok tt) →
  main_inner core args s2 = (s3, Ok code) →
  main os it core args s = (s3, Ok code).
Proof.
  intros Hsetup Hpil Himp Hrun. rewrite main_unfold. unfold main_body.
  fold (main_setup os it). unfold bind at 1. rewrite Hsetup.
  unfold bind at 1. rewrite check_deps_run, Hpil.
  unfold bind. rewrite Himp, Hrun. reflexivity.
Qed.

(** A core that reports a failure of its own by its exit code. *)
Lemma main_success_path_witness :
  ∃ s3, main os_repo it_PIL
          (mkCore (ret tt) (λ _, ret 2%Z)) (Some ["--help"]) st_boot
        = (s3, Ok 2%Z).
Proof.
  eexists.
  apply (main_success_path os_repo it_PIL (mkCore (ret tt) (λ _, ret 2%Z))
           (Some ["--help"]) st_boot
           (fst (main_setup os_repo it_PIL st_boot))
           (fst (main_setup os_repo it_PIL st_boot)));
    vm_compute; reflexivity.
Defined.

(** X11: the handlers of [main] touch nothing but the error stream.
    Whatever [main] ends with, [sys.path], [os.environ] and the success
    stream are as the [try] block left them, and the error stream is
    either as the [try] block left it or longer by one traceback text, in
    which case [main] returns [-1]. *)
Theorem main_handlers_frame (os : OsPath) (it : Interp) (core : Core)
    (args : option (list string)) (s s' : State) (r : result Z) :
  main os it core args s = (s', r) →
  ∃ s1 r1,
    main_body os it core args s = (s1, r1)
    ∧ sys_path s' = sys_path s1
    ∧ environ s' = environ s1
    ∧ stdout s' = stdout s1
    ∧ (stderr s' = stderr s1
       ∨ ∃ e, r1 = Raise e
              ∧ stderr s' = stderr s1 +:+ traceback_msg it e
              ∧ r = Ok (-1)%Z).
Proof.
  rewrite main_unfold.
  destruct (main_body os it core args s) as [s1 [code|e]] eqn:Hbody.
  - intros [= <- <-]. exists s1, (Ok code). auto 6.
  - intros Hh. exists s1, (Raise e). split; [reflexivity|].
    destruct (Py.isinstance e "SystemExit") eqn:Hse.
    + unfold main_handler in Hh. rewrite Hse in Hh.
      injection Hh as <- <-. auto 6.
    + destruct (Py.isinstance e "KeyboardInterrupt") eqn:Hki.
      * unfold main_handler in Hh. rewrite Hse, Hki in Hh.
        injection Hh as <- <-. auto 6.
      * rewrite (main_handler_other it e s1 Hse Hki) in Hh.
        destruct (stderr_fault it (traceback_msg it e) s1);
          injection Hh as <- <-; [auto 6|].
        repeat split. right. exists e. auto.
Qed.

Lemma main_handlers_frame_witness :
  let s' := fst (main os_repo it_PIL (core_fails Py.ValueError) None st_boot) in
  stdout s' = "start"
  ∧ sys_path s' = ["/repo/src/aoikpickchardep"; "/repo/src"; "/usr/lib/python3"].
Proof.
  destruct (main_handlers_frame os_repo it_PIL (core_fails Py.ValueError) None
              st_boot _ _ (surjective_pairing _))
    as [s1 [r1 [Hbody [H1 [_ [H2 _]]]]]].
  assert (Hs1 : s1 = fst (main_body os_repo it_PIL (core_fails Py.ValueError)
                            None st_boot)) by (rewrite Hbody; reflexivity).
  split.
  - rewrite H2, Hs1. vm_compute. reflexivity.
  - rewrite H1, Hs1. vm_compute. reflexivity.
Defined.

(** X12: an import of [PIL] that fails with anything but an
    [ImportError] (a broken installation, say) is not reported as a
    missing dependency.  [check_deps] lets the exception through, the core
    is not reached, and [main] treats it as any other failure: it returns
    [-1] and appends the traceback text, not the "not installed"
    message. *)
Theorem main_broken_PIL (os : OsPath) (it : Interp)
    (args : option (list string)) (s s1 : State) (e : Py.exn) :
  main_setup os it s = (s1, Ok tt) →
  import_PIL it s1 = Some e →
  Py.isinstance e "ImportError" = false →
  Py.isinstance e "SystemExit" = false →
  Py.isinstance e "KeyboardInterrupt" = false →
  stderr_fault it (traceback_msg it e) s1 = None →
  check_deps it s1 = (s1, Raise e)
  ∧ ∀ core : Core,
      main os it core args s
      = (set_stderr (stderr s1 +:+ traceback_msg it e) s1, Ok (-1)%Z).
Proof.
  intros Hsetup Hpil Himp Hse Hki Hw.
  assert (Hcheck : check_deps it s1 = (s1, Raise e))
    by (rewrite check_deps_run, Hpil, Himp; reflexivity).
  split; [exact Hcheck|]. intros core.
  rewrite main_unfold. unfold main_body.
  fold (main_setup os it). unfold bind at 1. rewrite Hsetup.
  unfold bind. rewrite Hcheck.
  rewrite (main_handler_other it e s1 Hse Hki), Hw. reflexivity.
Qed.

Lemma main_broken_PIL_witness :
  ∃ s', main os_repo
          (mkInterp "/repo/src/aoikpickchar/__main__.py" (λ _ _, None)
             (λ _, Some (Py.OSError "cannot load library"))
             (λ _ _, None) (λ e, Py.exn_class e +:+ nl))
          core_prints None st_boot
        = (s', Ok (-1)%Z)
        ∧ stderr s' = "Traceback:" +:+ nl +:+ "---" +:+ nl +:+ "OSError" +:+ nl
                      +:+ "---" +:+ nl
        ∧ stdout s' = "".
Proof.
  eexists.
  destruct (main_broken_PIL os_repo
              (mkInterp "/repo/src/aoikpickchar/__main__.py" (λ _ _, None)
                 (λ _, Some (Py.OSError "cannot load library"))
                 (λ _ _, None) (λ e, Py.exn_class e +:+ nl))
              None st_boot
              (fst (main_setup os_repo it_PIL st_boot))
              (Py.OSError "cannot load library")) as [_ H];
    [vm_compute; reflexivity ..|].
  rewrite H. split; [reflexivity|]. split; vm_compute; reflexivity.
Defined.

(** X13: with the assertions compiled in, the launcher starts nothing
    without the [aoikpickchardep] directory.  When the checks of
    [run_setup_syspath] pass and the package root exists but the
    dependency root does not, [main] returns [-1] with the traceback of
    the [AssertionError] that names the dependency root, for every core
    and whether or not [PIL] can be imported; [sys.path] has by then lost
    the removed paths and gained the package root, and [os.environ] is
    untouched. *)
Theorem main_missing_dep_dir (os : OsPath) (it : Interp)
    (args : option (list string)) (s : State) :
  let root := abspath os (launcher_root os it) in
  let dep := dep_root os root in
  let failed :=
    set_sys_path
      (prepend_missing (pkg_root os root)
         (purge (removing os (Some (launcher_dir os it))) (sys_path s))) s in
  assertions os = true →
  isabs os root = true →
  isabs os (main_init_path os (launcher_root os it))
  && isfile os (main_init_path os (launcher_root os it)) = true →
  load_main_init it (main_init_path os (launcher_root os it)) s = None →
  isabs os (pkg_root os root) && isdir os (pkg_root os root) = true →
  isabs os dep && isdir os dep = false →
  stderr_fault it (traceback_msg it (Py.AssertionError dep)) failed = None →
  ∀ core : Core,
    main os it core args s
    = (set_stderr
         (stderr s +:+ traceback_msg it (Py.AssertionError dep)) failed,
       Ok (-1)%Z).
Proof.
  intros root dep failed Hdbg Habs Hfile Hload Hpkg Hdep Hw core.
  assert (Hsetup : main_setup os it s = (failed, Raise (Py.AssertionError dep))).
  { unfold main_setup. fold (launcher_root os it). fold (launcher_dir os it).
    rewrite run_setup_syspath_run. fold root.
    unfold asserted. rewrite Hdbg. simpl. rewrite Habs, Hfile, Hload.
    rewrite setup_syspath_run. cbv zeta.
    unfold asserted. rewrite Hdbg. simpl. rewrite Hpkg.
    fold dep. rewrite Hdep. reflexivity. }
  rewrite main_unfold. unfold main_body.
  fold (main_setup os it). unfold bind at 1. rewrite Hsetup.
  rewrite main_handler_other by reflexivity.
  rewrite Hw. reflexivity.
Qed.

(** Under [python -O] the same checkout gets past the set-up: the missing
    dependency root is put on [sys.path] and the core is run. *)
Example main_missing_dep_dir_optimized :
  main (optimized os_no_dep) it_PIL core_prints None st_boot
  = (mkState ["/repo/src/aoikpickchardep"; "/repo/src"; "/usr/lib/python3"]
       {["PYTHONPATH" := "/repo/src/aoikpickchardep:/repo/src:/home/user"]}
       "done" "",
     Ok 0%Z).
Proof. vm_compute. reflexivity. Qed.

Lemma main_missing_dep_dir_witness :
  main os_no_dep it_no_PIL core_prints None st_boot
  = (mkState ["/repo/src"; "/usr/lib/python3"] ∅ ""
       (traceback_msg it_no_PIL (Py.AssertionError "/repo/src/aoikpickchardep")),
     Ok (-1)%Z).
Proof.
  rewrite (main_missing_dep_dir os_no_dep it_no_PIL None st_boot);
    vm_compute; reflexivity.
Defined.

(** ** The removal loop *)

Lemma count_occ_filter_ne (path x : string) (l : list string) :
  x ≠ path →
  count_occ string_dec (filter (λ y, y ≠ path) l) x = count_occ string_dec l x.
Proof.
  intros Hx. induction l as [|y l IH]; [reflexivity|].
  destruct (decide (y = path)) as [->|Hy].
  - rewrite filter_cons_False by (intros H; apply H; reflexivity).
    rewrite IH. simpl. destruct (string_dec path x) as [<-|_]; [contradiction|].
    reflexivity.
  - rewrite filter_cons_True by exact Hy. simpl. rewrite IH. reflexivity.
Qed.

Lemma length_filter_ne (path : string) (l : list string) :
  length (filter (λ y, y ≠ path) l) + count_occ string_dec l path = length l.
Proof.
  induction l as [|y l IH]; [reflexivity|].
  destruct (decide (y = path)) as [->|Hy].
  - rewrite filter_cons_False by (intros H; apply H; reflexivity).
    simpl. destruct (string_dec path path) as [_|H]; [lia|contradiction].
  - rewrite filter_cons_True by exact Hy. simpl.
    destruct (string_dec y path) as [->|_]; [contradiction|lia].
Qed.

(** X14: the loop [while True: try: sys.path.remove(path) / except
    ValueError: break] ends normally for every [sys.path]: the
    [ValueError] never escapes.  It removes every occurrence of [path],
    duplicates included, so the list gets shorter by the number of
    occurrences; every other path occurs as often as before, and nothing
    else of the interpreter state changes. *)
Theorem remove_loop_removes_all (path : string) (s : State) :
  ∃ s',
    remove_loop path s = (s', Ok tt)
    ∧ (path ∉ sys_path s')
    ∧ length (sys_path s') + count_occ string_dec (sys_path s) path
      = length (sys_path s)
    ∧ (∀ x, x ≠ path →
            count_occ string_dec (sys_path s') x
            = count_occ string_dec (sys_path s) x)
    ∧ environ s' = environ s ∧ stdout s' = stdout s ∧ stderr s' = stderr s.
Proof.
  eexists. split; [apply remove_loop_filter|]. simpl.
  split; [|split; [apply length_filter_ne|]].
  - intros H. apply (list_elem_of_filter (λ y, y ≠ path)) in H as [H _].
    apply H. reflexivity.
  - split; [|auto]. intros x Hx. apply count_occ_filter_ne. exact Hx.
Qed.
